(** * BaseEnv: the base class of the locomotion environments

    A shallow embedding of [loco_mujoco/environments/base.py].

    The class [BaseEnv] sits between three collaborators that are not part
    of the file: the MuJoCo simulator wrapped by mushroom_rl's
    [MultiMuJoCo], the trajectory store [loco_mujoco.utils.Trajectory] and
    the reward strategies of [loco_mujoco.utils].  They appear below as
    interfaces (type classes); everything the file itself does is a
    definition.

    Conventions.
    - A method that mutates [self] is a computation in the monad [M]: a
      function from the environment to the environment after the call and
      either the exception raised or the value returned.  An exception
      keeps the mutations made before it, as in Python.
    - numpy's float64 numbers are an interface [Num] with two instances:
      IEEE binary64 ([float], the numbers the program runs on) and exact
      rationals ([Q]).  Code that only moves numbers around is generic.
    - A 1-D numpy array of numbers is a [list F]; a value whose rank
      matters is an [ndarray F]. *)

From Stdlib Require Import ZArith QArith Lqa Floats.
From stdpp Require Import gmap strings list.

Local Open Scope Z_scope.
Local Set Warnings "-register-all,-inexact-float".

(** ** Numbers *)

Class Num (F : Type) := {
  of_Z : Z → F;
  fadd : F → F → F;
  fsub : F → F → F;
  fmul : F → F → F;
  fdiv : F → F → F;
  fopp : F → F;
}.

(** [np.inf], which only binary64 has. *)
Class Inf (F : Type) := inf : F.

Definition float_of_Z (z : Z) : float :=
  if z <? 0 then PrimFloat.opp (PrimFloat.of_uint63 (Uint63.of_Z (- z)))
  else PrimFloat.of_uint63 (Uint63.of_Z z).

#[export] Instance Num_float : Num float := {
  of_Z := float_of_Z;
  fadd := PrimFloat.add;
  fsub := PrimFloat.sub;
  fmul := PrimFloat.mul;
  fdiv := PrimFloat.div;
  fopp := PrimFloat.opp;
}.

#[export] Instance Inf_float : Inf float := PrimFloat.infinity.

#[export] Instance Num_Q : Num Q := {
  of_Z := inject_Z;
  fadd := Qplus;
  fsub := Qminus;
  fmul := Qmult;
  fdiv := Qdiv;
  fopp := Qopp;
}.

(** ** Exceptions *)

Inductive exn : Type :=
  | ValueError (msg : string)
  | AssertionError
  | KeyError (key : string)
  | IndexError
  | TypeError
  | ZeroDivisionError
  | NotImplementedError (msg : string) (reward_type : string)
  | CollaboratorError (msg : string).

Abbreviation Ok := inr (only parsing).
Abbreviation Raise := inl (only parsing).

#[export] Instance exn_ret : MRet (sum exn) := λ A x, Ok x.
#[export] Instance exn_bind : MBind (sum exn) := λ A B f r,
  match r with
  | Raise e => Raise e
  | Ok x => f x
  end.

(** ** numpy arrays *)

(** Elementwise binary operation on 1-D arrays with numpy's broadcasting:
    equal lengths pair up, a length-one operand is repeated, anything
    else is numpy's "operands could not be broadcast together". *)
Definition broadcast {F} (op : F → F → F) (xs ys : list F) : exn + list F :=
  if decide (length xs = length ys) then Ok (zip_with op xs ys)
  else match xs, ys with
       | [x], _ => Ok (op x <$> ys)
       | _, [y] => Ok ((λ x, op x y) <$> xs)
       | _, _ => Raise (ValueError "operands could not be broadcast together")
       end.

(** [arr / c] and the like, for a Python scalar [c]. *)
Definition scalar_op {F} (op : F → F → F) (xs : list F) (c : F) : list F :=
  (λ x, op x c) <$> xs.

(** An array of any rank: a number (rank 0, what iterating a 1-D array
    yields) or a sequence of arrays of one rank less. *)
Inductive ndarray (F : Type) : Type :=
  | Scalar (x : F)
  | Array (items : list (ndarray F)).
Arguments Scalar {F} x.
Arguments Array {F} items.

Fixpoint shape {F} (a : ndarray F) : list nat :=
  match a with
  | Scalar _ => []
  | Array items =>
      length items :: match items with
                      | [] => []
                      | item :: _ => shape item
                      end
  end.

(** [np.array([x1, ..., xn])] *)
Definition array1 {F} (xs : list F) : ndarray F := Array (Scalar <$> xs).

(** ** The collaborators

    [ObservationType] is mushroom_rl's enumeration of what an entry of the
    observation specification reads from the simulator. *)

Inductive ObservationType : Type :=
  | BODY_POS | BODY_ROT | BODY_VEL | JOINT_POS | JOINT_VEL | SITE_POS | SITE_ROT.

#[export] Instance ObservationType_eq_dec : EqDecision ObservationType.
Proof. solve_decision. Defined.

(** The part of [mujoco.MjData] the class writes: [joint(name).qpos],
    [joint(name).qvel] and [site(name).xmat], by entity name.  Resolving a
    name and fitting a value into MuJoCo's buffer are the simulator's
    business; a write here stores the value under the name. *)
Record MjData (F : Type) : Type := mkMjData {
  qpos : gmap string (ndarray F);
  qvel : gmap string (ndarray F);
  xmat : gmap string (ndarray F);
}.
Arguments mkMjData {F} _ _ _.
Arguments qpos {F} _.
Arguments qvel {F} _.
Arguments xmat {F} _.

(** The reward strategies of [loco_mujoco.utils]: their constructors and
    [reset_state].  [P] is the type of a keyword dictionary. *)
Class RewardInterface (R P : Type) := {
  NoReward : R;
  CustomReward : P → R;
  TargetVelocityReward : Z → P → R;
  PosReward : Z → R;
  reset_state : R → R;
}.

(** What [load_trajectory] hands to the constructor of the trajectory
    store (the interpolation hooks are static methods of the class and the
    same in every call). *)
Record TrajectoryArgs (F P : Type) : Type := mkTrajectoryArgs {
  arg_keys : list string;
  arg_low : list F;
  arg_high : list F;
  arg_joint_pos_idx : list Z;
  arg_kwargs : P;
}.
Arguments mkTrajectoryArgs {F P} _ _ _ _ _.
Arguments arg_keys {F P} _.
Arguments arg_low {F P} _.
Arguments arg_high {F P} _.
Arguments arg_joint_pos_idx {F P} _.
Arguments arg_kwargs {F P} _.

(** [loco_mujoco.utils.Trajectory]: the constructor (which reads files and
    may fail), the two attributes [setup] reads, under the names it reads
    them by, and [reset_trajectory], whose two optional arguments are
    drawn at random by the store when absent and which returns a sample in
    the layout of the observation specification. *)
Class TrajectoryInterface (T F P : Type) := {
  Trajectory : TrajectoryArgs F P → exn + T;
  trajectory_length : T → Z;
  nnumber_of_trajectories : T → Z;
  reset_trajectory : T → option Z → option Z → exn + T * list (ndarray F);
}.

(** mushroom_rl's [RunningAveragedWindow]: a mean over the last
    [window_size] samples.  The mean has the shape the window was made
    with, and keeps it when a sample of that shape comes in. *)
Class WindowInterface (W F : Type) := {
  RunningAveragedWindow : nat → Z → W;
  update_stats : W → list F → W;
  mean : W → list F;
  mean_new : ∀ n window_size, length (mean (RunningAveragedWindow n window_size)) = n;
  mean_update : ∀ w sample,
    length sample = length (mean w) →
    length (mean (update_stats w sample)) = length (mean w);
}.

(** [MultiMuJoCo._get_collision_force]: the six components MuJoCo's
    [mj_contactForce] reports for the first contact between two groups. *)
Class ContactInterface (F : Type) := {
  _get_collision_force : MjData F → string → string → list F;
  collision_force_length : ∀ d g1 g2, length (_get_collision_force d g1 g2) = 6%nat;
}.

(** What a call leaves behind at a collaborator, in order. *)
Inductive event : Type :=
  | Reset_state
  | Warn (category message : string)
  | Reset_trajectory (substep_no traj_no : option Z).

#[export] Instance event_eq_dec : EqDecision event.
Proof. solve_decision. Defined.

(** mushroom_rl's [Box] and [MDPInfo], and the [ObservationHelper] that
    [MultiMuJoCo] builds from the observation specification. *)
Record Box (F : Type) : Type := mkBox { low : list F; high : list F }.
Arguments mkBox {F} _ _.
Arguments low {F} _.
Arguments high {F} _.

Record MDPInfo (F : Type) : Type := mkMDPInfo {
  observation_space : Box F;
  action_space : Box F;
}.
Arguments mkMDPInfo {F} _ _.
Arguments observation_space {F} _.
Arguments action_space {F} _.

Abbreviation spec_entry := (string * string * ObservationType)%type.

Record ObservationHelper : Type := mkObservationHelper {
  observation_spec : list spec_entry;
  obs_idx_map : gmap string (list Z);
  joint_pos_idx : list Z;
}.

(** What [MultiMuJoCo.__init__] leaves in [self]. *)
Record MultiMuJoCo (F : Type) : Type := mkMultiMuJoCo {
  super_obs_helper : ObservationHelper;
  super_info : MDPInfo F;
  super_data : MjData F;
  super_n_substeps : Z;
}.
Arguments mkMultiMuJoCo {F} _ _ _ _.
Arguments super_obs_helper {F} _.
Arguments super_info {F} _.
Arguments super_data {F} _.
Arguments super_n_substeps {F} _.

(** ** The environment *)

Section BaseEnv.
Context {F R T W V : Type}.

(** A keyword dictionary such as [reward_params] or [traj_params]. *)
Abbreviation dict := (gmap string V).

Context `{!Num F, !RewardInterface R dict, !TrajectoryInterface T F dict,
          !WindowInterface W F, !ContactInterface F}.

Record BaseEnv : Type := mkBaseEnv {
  obs_helper : ObservationHelper;
  info : MDPInfo F;
  _data : MjData F;
  _n_substeps : Z;
  _reward_function : R;
  _use_foot_forces : bool;
  norm_act_mean : list F;
  norm_act_delta : list F;
  _kinematic_obs_mask : list Z;
  mean_grf : W;
  trajectories : option T;
  _random_start : bool;
  _init_step_no : option Z;
  log : list event;
}.

(** Assignments to one attribute. *)
Definition set_obs_helper (oh : ObservationHelper) (env : BaseEnv) : BaseEnv :=
  mkBaseEnv oh (info env) (_data env) (_n_substeps env) (_reward_function env)
    (_use_foot_forces env) (norm_act_mean env) (norm_act_delta env)
    (_kinematic_obs_mask env) (mean_grf env) (trajectories env)
    (_random_start env) (_init_step_no env) (log env).
Definition set_data (d : MjData F) (env : BaseEnv) : BaseEnv :=
  mkBaseEnv (obs_helper env) (info env) d (_n_substeps env) (_reward_function env)
    (_use_foot_forces env) (norm_act_mean env) (norm_act_delta env)
    (_kinematic_obs_mask env) (mean_grf env) (trajectories env)
    (_random_start env) (_init_step_no env) (log env).
Definition set_reward_function (r : R) (env : BaseEnv) : BaseEnv :=
  mkBaseEnv (obs_helper env) (info env) (_data env) (_n_substeps env) r
    (_use_foot_forces env) (norm_act_mean env) (norm_act_delta env)
    (_kinematic_obs_mask env) (mean_grf env) (trajectories env)
    (_random_start env) (_init_step_no env) (log env).
Definition set_mean_grf (g : W) (env : BaseEnv) : BaseEnv :=
  mkBaseEnv (obs_helper env) (info env) (_data env) (_n_substeps env)
    (_reward_function env) (_use_foot_forces env) (norm_act_mean env)
    (norm_act_delta env) (_kinematic_obs_mask env) g (trajectories env)
    (_random_start env) (_init_step_no env) (log env).
Definition set_trajectories (t : option T) (env : BaseEnv) : BaseEnv :=
  mkBaseEnv (obs_helper env) (info env) (_data env) (_n_substeps env)
    (_reward_function env) (_use_foot_forces env) (norm_act_mean env)
    (norm_act_delta env) (_kinematic_obs_mask env) (mean_grf env) t
    (_random_start env) (_init_step_no env) (log env).
(** A call recorded at a collaborator. *)
Definition emit (e : event) (env : BaseEnv) : BaseEnv :=
  mkBaseEnv (obs_helper env) (info env) (_data env) (_n_substeps env)
    (_reward_function env) (_use_foot_forces env) (norm_act_mean env)
    (norm_act_delta env) (_kinematic_obs_mask env) (mean_grf env)
    (trajectories env) (_random_start env) (_init_step_no env) (log env ++ [e]).

(** *** Methods as computations on [self] *)

Definition M (A : Type) : Type := BaseEnv → BaseEnv * (exn + A).

#[global] Instance M_ret : MRet M := λ A x env, (env, Ok x).
#[global] Instance M_bind : MBind M := λ A B f c env,
  match c env with
  | (env', Raise e) => (env', Raise e)
  | (env', Ok x) => f x env'
  end.

Definition raise {A} (e : exn) : M A := λ env, (env, Raise e).
Definition get : M BaseEnv := λ env, (env, Ok env).
Definition modify (f : BaseEnv → BaseEnv) : M unit := λ env, (f env, Ok tt).
Definition lift {A} (r : exn + A) : M A := λ env, (env, r).
Definition py_assert (b : bool) : M unit :=
  if b then mret tt else raise AssertionError.
Definition pass : M unit := mret tt.

(** [for x in xs: body(x)] *)
Fixpoint for_in {A} (xs : list A) (body : A → M unit) : M unit :=
  match xs with
  | [] => pass
  | x :: xs' => body x;; for_in xs' body
  end.

(** *** [get_obs_idx] *)

Definition get_obs_idx (oh : ObservationHelper) (key : string) : exn + list Z :=
  match obs_idx_map oh !! key with
  | None => Raise (KeyError key)
  | Some idx => Ok ((λ i, i - 2) <$> idx)
  end.

(** *** [_get_reward_function]

    [**reward_params] needs a dictionary; the default [None] is a
    [TypeError] when it is unpacked. *)

Definition unpack (reward_params : option dict) : exn + dict :=
  match reward_params with
  | None => Raise TypeError
  | Some p => Ok p
  end.

Definition unique_idx (idx : list Z) : exn + Z :=
  match idx with
  | [i] => Ok i
  | _ => Raise AssertionError
  end.

Definition _get_reward_function (oh : ObservationHelper)
    (reward_type : option string) (reward_params : option dict) : exn + R :=
  if decide (reward_type = Some "custom"%string) then
    p ← unpack reward_params; Ok (CustomReward p)
  else if decide (reward_type = Some "target_velocity"%string) then
    x_vel_idx ← get_obs_idx oh "dq_pelvis_tx";
    x_vel_idx ← unique_idx x_vel_idx;
    p ← unpack reward_params;
    Ok (TargetVelocityReward x_vel_idx p)
  else if decide (reward_type = Some "x_pos"%string) then
    x_idx ← get_obs_idx oh "q_pelvis_tx";
    x_idx ← unique_idx x_idx;
    Ok (PosReward x_idx)
  else match reward_type with
       | None => Ok NoReward
       | Some other =>
           Raise (NotImplementedError
                    "The specified reward has not been implemented: " other)
       end.

(** *** [set_sim_state]

    The sample is what iterating it yields: the items of a list, or the
    rows of an array. *)

Definition write_qpos (name : string) (value : ndarray F) (env : BaseEnv) : BaseEnv :=
  let d := _data env in
  set_data (mkMjData (<[name := value]> (qpos d)) (qvel d) (xmat d)) env.
Definition write_qvel (name : string) (value : ndarray F) (env : BaseEnv) : BaseEnv :=
  let d := _data env in
  set_data (mkMjData (qpos d) (<[name := value]> (qvel d)) (xmat d)) env.
Definition write_xmat (name : string) (value : ndarray F) (env : BaseEnv) : BaseEnv :=
  let d := _data env in
  set_data (mkMjData (qpos d) (qvel d) (<[name := value]> (xmat d))) env.

(** The body of the loop, for one [(key, name, ot)] and its value. *)
Definition set_sim_state_entry (key_name_ot_value : spec_entry * ndarray F) : M unit :=
  let '((key, name, ot), value) := key_name_ot_value in
  if decide (ot = JOINT_POS) then modify (write_qpos name value)
  else if decide (ot = JOINT_VEL) then modify (write_qvel name value)
  else if decide (ot = SITE_ROT) then
    py_assert (bool_decide (length (shape value) = 2%nat));;
    modify (write_xmat name value)
  else pass.

Definition set_sim_state (sample : list (ndarray F)) : M unit :=
  env ← get;
  let obs_spec := observation_spec (obs_helper env) in
  py_assert (bool_decide (length sample = length obs_spec));;
  for_in (zip obs_spec sample) set_sim_state_entry.

(** *** [_init_sim_from_obs] *)

Definition items (a : ndarray F) : list (ndarray F) :=
  match a with
  | Scalar _ => []
  | Array xs => xs
  end.

Definition _init_sim_from_obs (obs : ndarray F) : M unit :=
  py_assert (bool_decide (length (shape obs) = 1%nat));;
  let obs := [Scalar (of_Z 0); Scalar (of_Z 0)] ++ items obs in
  env ← get;
  let obs_spec := observation_spec (obs_helper env) in
  py_assert (bool_decide (length obs_spec ≤ length obs)%nat);;
  let obs := take (length obs_spec) obs in
  set_sim_state obs.

(** *** [load_trajectory]

    [warnings.warn] reports the warning (the record of calls keeps it);
    it does not raise unless the interpreter is told to turn warnings into
    errors. *)

(** [MultiMuJoCo.get_all_observation_keys]: the keys of the index map,
    in the order of the specification. *)
Definition get_all_observation_keys (env : BaseEnv) : list string :=
  remove_dups ((λ e : spec_entry, e.1.1) <$> observation_spec (obs_helper env)).

Definition load_trajectory (traj_params : dict) : M unit :=
  env ← get;
  (if trajectories env is Some _
   then modify (emit (Warn "RuntimeWarning"
                        "New trajectories loaded, which overrides the old ones."))
   else pass);;
  t ← lift (Trajectory (mkTrajectoryArgs
                          (get_all_observation_keys env)
                          (low (observation_space (info env)))
                          (high (observation_space (info env)))
                          (joint_pos_idx (obs_helper env))
                          traj_params));
  modify (set_trajectories (Some t)).

(** *** [setup] *)

(** [self.trajectories.reset_trajectory(...)], which moves the store. *)
Definition trajectories_reset_trajectory (t : T) (substep_no traj_no : option Z)
    : M (list (ndarray F)) :=
  modify (emit (Reset_trajectory substep_no traj_no));;
  '(t', sample) ← lift (reset_trajectory t substep_no traj_no);
  modify (set_trajectories (Some t'));;
  mret sample.

(** [a % b] on integers. *)
Definition py_mod (a b : Z) : exn + Z :=
  if decide (b = 0) then Raise ZeroDivisionError else Ok (a `mod` b).

(** [int(a / b)] on integers: the true quotient, truncated towards zero.
    The quotient is a binary64 number, and the truncation is that of the
    exact quotient as long as [|a| < 2^53]. *)
Definition py_int_truediv (a b : Z) : exn + Z :=
  if decide (b = 0) then Raise ZeroDivisionError else Ok (a `quot` b).

(** A trajectory store has neither [__bool__] nor [__len__], so
    [not self.trajectories] is [self.trajectories is None]. *)
Definition setup (obs : option (ndarray F)) : M unit :=
  modify (λ env, set_reward_function (reset_state (_reward_function env)) env);;
  modify (emit Reset_state);;
  match obs with
  | Some obs => _init_sim_from_obs obs
  | None =>
      env ← get;
      (if bool_decide (trajectories env = None) && _random_start env then
         raise (ValueError "Random start not possible without trajectory data.")
       else if bool_decide (trajectories env = None)
               && bool_decide (_init_step_no env ≠ None) then
         raise (ValueError
                  "Setting an initial step is not possible without trajectory data.")
       else if bool_decide (_init_step_no env ≠ None) && _random_start env then
         raise (ValueError
                  "Either use a random start or set an initial step, not both.")
       else pass);;
      match trajectories env with
      | Some traj =>
          if _random_start env then
            sample ← trajectories_reset_trajectory traj None None;
            set_sim_state sample
          else
            match _init_step_no env with
            | Some k =>
                if bool_decide (k ≠ 0) then
                  let traj_len := trajectory_length traj in
                  let n_traj := nnumber_of_trajectories traj in
                  py_assert (bool_decide (k ≤ traj_len * n_traj));;
                  substep_no ← lift (py_mod k traj_len);
                  traj_no ← lift (py_int_truediv k traj_len);
                  sample ← trajectories_reset_trajectory traj
                             (Some substep_no) (Some traj_no);
                  set_sim_state sample
                else pass
            | None => pass
            end
      | None => pass
      end
  end.

(** *** Observations

    The constructor calls [_setup_ground_force_statistics] and
    [_get_observation_space] (and [_get_reward_function] above) before the
    object is complete; they take the attributes they read. *)

Definition _get_grf_size : nat := 12.

Definition _setup_ground_force_statistics (n_substeps : Z) : W :=
  RunningAveragedWindow _get_grf_size n_substeps.

Definition _get_observation_space `{!Inf F} (i : MDPInfo F) (use_foot_forces : bool)
    : list F * list F :=
  let sim_low := drop 2 (low (observation_space i)) in
  let sim_high := drop 2 (high (observation_space i)) in
  if use_foot_forces then
    let grf_low := scalar_op fmul (fopp <$> replicate 12 (of_Z 1)) inf in
    let grf_high := scalar_op fmul (replicate 12 (of_Z 1)) inf in
    (sim_low ++ grf_low, sim_high ++ grf_high)
  else (sim_low, sim_high).

(** [obs] is a 1-D array, so [flatten] changes nothing. *)
Definition _create_observation (env : BaseEnv) (obs : list F) : list F :=
  if _use_foot_forces env then
    drop 2 obs ++ scalar_op fdiv (mean (mean_grf env)) (of_Z 1000)
  else drop 2 obs.

Definition _get_ground_forces (env : BaseEnv) : list F :=
  take 3 (_get_collision_force (_data env) "floor" "foot_r")
  ++ take 3 (_get_collision_force (_data env) "floor" "front_foot_r")
  ++ take 3 (_get_collision_force (_data env) "floor" "foot_l")
  ++ take 3 (_get_collision_force (_data env) "floor" "front_foot_l").

Definition _simulation_post_step : M unit :=
  env ← get;
  if _use_foot_forces env then
    let grf := _get_ground_forces env in
    modify (set_mean_grf (update_stats (mean_grf env) grf))
  else pass.

(** *** [_preprocess_action] *)

(** Lines 89 to 91 of the constructor: the native bounds become a mean
    and a half range. *)
Definition action_mean (low high : list F) : exn + list F :=
  s ← broadcast fadd high low; Ok (scalar_op fdiv s (of_Z 2)).
Definition action_delta (low high : list F) : exn + list F :=
  d ← broadcast fsub high low; Ok (scalar_op fdiv d (of_Z 2)).

Definition _preprocess_action (env : BaseEnv) (action : list F) : exn + list F :=
  scaled ← broadcast fmul action (norm_act_delta env);
  broadcast fadd scaled (norm_act_mean env).

(** *** [_get_from_obs] *)

(** [obs[i]] *)
Definition index (obs : list F) (i : Z) : exn + F :=
  let n := Z.of_nat (length obs) in
  let j := if bool_decide (i < 0) then n + i else i in
  if bool_decide (0 ≤ j) then
    match obs !! Z.to_nat j with
    | Some x => Ok x
    | None => Raise IndexError
    end
  else Raise IndexError.

(** [ObservationHelper.get_from_obs]: [obs[self.obs_idx_map[key]]] *)
Definition get_from_obs (oh : ObservationHelper) (obs : list F) (key : string)
    : exn + list F :=
  match obs_idx_map oh !! key with
  | None => Raise (KeyError key)
  | Some idx => mapM (index obs) idx
  end.

(** The argument [keys]: a list of keys, one string, or anything else. *)
Inductive keys_arg : Type :=
  | KeyList (ks : list string)
  | KeyStr (k : string)
  | KeyOther.

(** [list(s)] for a string [s]: its characters, each a string. *)
Fixpoint list_of_str (s : string) : list string :=
  match s with
  | EmptyString => []
  | String c s' => String c EmptyString :: list_of_str s'
  end.

(** The keys the loop of [_get_from_obs] runs over. *)
Definition keys_to_list (keys : keys_arg) : exn + list string :=
  match keys with
  | KeyList ks => Ok ks
  | KeyStr k => Ok (list_of_str k)
  | KeyOther => Raise AssertionError
  end.

(** [np.concatenate] of 1-D arrays *)
Definition concatenate (entries : list (list F)) : exn + list F :=
  match entries with
  | [] => Raise (ValueError "need at least one array to concatenate")
  | _ => Ok (concat entries)
  end.

Definition _get_from_obs (env : BaseEnv) (obs : list F) (keys : keys_arg)
    : exn + list F :=
  let obs := [of_Z 0; of_Z 0] ++ obs in
  keys ← keys_to_list keys;
  entries ← mapM (get_from_obs (obs_helper env) obs) keys;
  concatenate entries.

(** *** The constructor

    [super] is the object as [MultiMuJoCo.__init__] leaves it. *)
Definition __init__ `{!Inf F} (super : MultiMuJoCo F)
    (reward_type : option string) (reward_params : option dict)
    (traj_params : option dict) (random_start : bool) (init_step_no : option Z)
    (use_foot_forces : bool) : exn + BaseEnv :=
  let oh := super_obs_helper super in
  reward_function ← _get_reward_function oh reward_type reward_params;
  let '(obs_low, obs_high) := _get_observation_space (super_info super) use_foot_forces in
  let low := low (action_space (super_info super)) in
  let high := high (action_space (super_info super)) in
  norm_act_mean ← action_mean low high;
  norm_act_delta ← action_delta low high;
  let info := mkMDPInfo (mkBox obs_low obs_high)
                (mkBox (replicate (length low) (of_Z (-1)))
                       (replicate (length high) (of_Z 1))) in
  let mask := seqZ 0 (Z.of_nat (length (observation_spec oh)) - 2) in
  let mean_grf := _setup_ground_force_statistics (super_n_substeps super) in
  let env := mkBaseEnv oh info (super_data super) (super_n_substeps super)
               reward_function use_foot_forces norm_act_mean norm_act_delta
               mask mean_grf None random_start init_step_no [] in
  match traj_params with
  | Some p =>
      if bool_decide (size p ≠ 0%nat) then
        match load_trajectory p env with
        | (_, Raise e) => Raise e
        | (env', Ok _) => Ok env'
        end
      else Ok env
  | None => Ok env
  end.

(** *** Descriptions used in the statements *)

(** The pairs the loop of [set_sim_state] runs over. *)
Definition paired (env : BaseEnv) (sample : list (ndarray F))
    : list (spec_entry * ndarray F) :=
  zip (observation_spec (obs_helper env)) sample.

(** A rotation comes with a value of rank two. *)
Definition rank_ok (p : spec_entry * ndarray F) : bool :=
  bool_decide (p.1.2 = SITE_ROT → length (shape p.2) = 2%nat).

(** What the field of kind [ot] holds for the entity [name] once every
    pair of that kind has been written in order, when it held [old]. *)
Definition written (ot : ObservationType) (name : string)
    (pairs : list (spec_entry * ndarray F)) (old : option (ndarray F))
    : option (ndarray F) :=
  foldl (λ acc p, if decide (p.1.2 = ot ∧ p.1.1.2 = name) then Some p.2 else acc)
        old pairs.

(** The arguments [load_trajectory] builds for the constructor of the
    store. *)
Definition trajectory_args (env : BaseEnv) (traj_params : dict)
    : TrajectoryArgs F dict :=
  mkTrajectoryArgs (get_all_observation_keys env)
    (low (observation_space (info env))) (high (observation_space (info env)))
    (joint_pos_idx (obs_helper env)) traj_params.

(** The warning of a reload. *)
Definition reload_warning : event :=
  Warn "RuntimeWarning" "New trajectories loaded, which overrides the old ones.".

(** The observation helper with another index map. *)
Definition with_obs_idx_map (m : gmap string (list Z)) (oh : ObservationHelper)
    : ObservationHelper :=
  mkObservationHelper (observation_spec oh) m (joint_pos_idx oh).

(** The two lines that follow a choice of sample in [setup]: the store
    is reset to the sample and the simulator is set to it. *)
Definition restore_from_trajectory (t : T) (substep_no traj_no : option Z) : M unit :=
  sample ← trajectories_reset_trajectory t substep_no traj_no;
  set_sim_state sample.

(** The start of every [setup]: the reward strategy is reset. *)
Definition reward_reset (env : BaseEnv) : BaseEnv :=
  emit Reset_state (set_reward_function (reset_state (_reward_function env)) env).

(** The states of an environment: the one the constructor returns, and
    those the methods that change [self] lead to. *)
Inductive reachable `{!Inf F} : BaseEnv → Prop :=
  | reach_init super reward_type reward_params traj_params random_start
      init_step_no use_foot_forces env :
      __init__ super reward_type reward_params traj_params random_start
        init_step_no use_foot_forces = Ok env →
      reachable env
  | reach_load_trajectory traj_params env :
      reachable env → reachable (fst (load_trajectory traj_params env))
  | reach_setup obs env :
      reachable env → reachable (fst (setup obs env))
  | reach_set_sim_state sample env :
      reachable env → reachable (fst (set_sim_state sample env))
  | reach_init_sim_from_obs obs env :
      reachable env → reachable (fst (_init_sim_from_obs obs env))
  | reach_simulation_post_step env :
      reachable env → reachable (fst (_simulation_post_step env)).

End BaseEnv.

Arguments BaseEnv : clear implicits.
Arguments M : clear implicits.

(** ** The rest of the class

    The methods beside the ones above that do not loop for ever
    ([play_trajectory_demo]) and do not live in the file system
    ([_save_xml_handle]). *)

(** [Trajectory.create_dataset], which [create_dataset] hands over to. *)
Class DatasetInterface (T D : Type) := {
  trajectory_create_dataset : T → option (list string) → exn + D;
}.

(** A dm_control MJCF handle: [find(namespace, name)] gives the element
    or [None], and [remove] takes the element out.  A removed element is
    not found again, and the other names are found as before. *)
Class XmlInterface (H E : Type) := {
  find : H → string → string → option E;
  remove : E → H → H;
  find_remove_same : ∀ h namespace name e,
    find h namespace name = Some e → find (remove e h) namespace name = None;
  find_remove_other : ∀ h namespace name e namespace' name',
    find h namespace name = Some e →
    (namespace', name') ≠ (namespace, name) →
    find (remove e h) namespace' name' = find h namespace' name';
}.

(** Calling [remove] on the [None] that [find] gave. *)
Inductive attribute_error : Type :=
  | NoneType_has_no_attribute_remove.

(** The argument of [obs_to_kinematics_conversion]: one observation, or
    a batch of them with a known number of columns. *)
Inductive observations (F : Type) : Type :=
  | Obs1 (obs : list F)
  | Obs2 (ncols : nat) (rows : list (list F)).
Arguments Obs1 {F} obs.
Arguments Obs2 {F} ncols rows.

Section Rest.
Context {F R T W V : Type}.
Context `{!Num F, !RewardInterface R (gmap string V),
          !TrajectoryInterface T F (gmap string V),
          !WindowInterface W F, !ContactInterface F}.
Implicit Types env : BaseEnv F R T W.

Definition get_kinematic_obs_mask env : list Z := _kinematic_obs_mask env.

(** What the constructor decides once and for all: the attributes no
    other method assigns. *)
Definition configuration env
    : ObservationHelper * MDPInfo F * Z * bool * list F * list F * list Z
      * bool * option Z :=
  (obs_helper env, info env, _n_substeps env, _use_foot_forces env,
   norm_act_mean env, norm_act_delta env, _kinematic_obs_mask env,
   _random_start env, _init_step_no env).

(** *** [obs_to_kinematics_conversion] *)

(** [np.atleast_2d]: the number of columns and the rows. *)
Definition atleast_2d (obs : observations F) : nat * list (list F) :=
  match obs with
  | Obs1 xs => (length xs, [xs])
  | Obs2 ncols rows => (ncols, rows)
  end.

(** [obs[:, j]] for [j >= 0] *)
Definition column (ncols : nat) (rows : list (list F)) (j : nat) : exn + list F :=
  if bool_decide (j < ncols)%nat then
    mapM (λ row : list F, match row !! j with
                          | Some x => Ok x
                          | None => Raise IndexError
                          end) rows
  else Raise IndexError.

(** The loop over [enumerate(rel_keys)], from index [i] on. *)
Fixpoint conversion_loop (ncols : nat) (rows : list (list F)) (i : nat)
    (rel_keys : list string) (dataset : gmap string (list F))
    : exn + gmap string (list F) :=
  match rel_keys with
  | [] => Ok dataset
  | key :: rel_keys' =>
      data ← (if bool_decide (i < 2)%nat
              then Ok (replicate (length rows) (of_Z 0))
              else column ncols rows (i - 2));
      conversion_loop ncols rows (S i) rel_keys' (<[key := data]> dataset)
  end.

Definition obs_to_kinematics_conversion env (obs : observations F)
    : exn + gmap string (list F) :=
  let '(ncols, rows) := atleast_2d obs in
  let rel_keys := (λ obs_spec : spec_entry, obs_spec.1.1)
                  <$> observation_spec (obs_helper env) in
  conversion_loop ncols rows 0 rel_keys ∅.

(** *** [create_dataset] *)

Definition create_dataset {D} `{!DatasetInterface T D} env
    (ignore_keys : option (list string)) : exn + D :=
  match trajectories env with
  | Some t => trajectory_create_dataset t ignore_keys
  | None =>
      Raise (ValueError
               ("No trajectory was passed to the environment. "
                +:+ "To create a dataset pass a trajectory first."))
  end.

(** *** [_len_qpos_qvel] *)

Definition startswith (key prefix : string) : Prop :=
  String.prefix prefix key = true.

#[global] Instance startswith_dec key prefix : Decision (startswith key prefix).
Proof. unfold startswith. apply _. Defined.

Definition _len_qpos_qvel env : nat * nat :=
  let keys := get_all_observation_keys env in
  let len_qpos := length (filter (λ key, startswith key "q_") keys) in
  let len_qvel := length (filter (λ key, startswith key "dq_") keys) in
  (len_qpos, len_qvel).

End Rest.

(** *** [_delete_from_xml_handle]

    The handle is changed in place: what was removed before a failure
    stays removed. *)

Section Xml.
Context {H E : Type} `{!XmlInterface H E}.

(** One of the three loops, over the names of one namespace. *)
Fixpoint remove_all (namespace : string) (names : list string) (xml_handle : H)
    : H * option attribute_error :=
  match names with
  | [] => (xml_handle, None)
  | name :: names' =>
      match find xml_handle namespace name with
      | None => (xml_handle, Some NoneType_has_no_attribute_remove)
      | Some handle => remove_all namespace names' (remove handle xml_handle)
      end
  end.

Definition _delete_from_xml_handle (xml_handle : H)
    (joints_to_remove motors_to_remove equ_constraints : list string)
    : H * option attribute_error :=
  match remove_all "joint" joints_to_remove xml_handle with
  | (h, Some e) => (h, Some e)
  | (h, None) =>
      match remove_all "actuator" motors_to_remove h with
      | (h, Some e) => (h, Some e)
      | (h, None) => remove_all "equality" equ_constraints h
      end
  end.

End Xml.

(** ** Small collaborators

    One concrete choice for each interface, to run the methods on. *)

Module Demo.

Abbreviation kw := (gmap string Z).

(** A reward strategy is the constructor call that made it, under the
    resets it has seen. *)
Inductive reward : Type :=
  | No
  | Custom (p : kw)
  | TargetVelocity (x_vel_idx : Z) (p : kw)
  | Pos (pos_idx : Z)
  | AfterReset (r : reward).

#[global] Instance reward_interface : RewardInterface reward kw := {
  NoReward := No;
  CustomReward := Custom;
  TargetVelocityReward := TargetVelocity;
  PosReward := Pos;
  reset_state := AfterReset;
}.

(** A store of [n_traj] trajectories of [traj_len] joint positions; the
    sample at [(substep_no, traj_no)] of a one-entry specification is
    the number [traj_no * traj_len + substep_no], and a store asked for
    a random sample gives its first one. *)
Record store : Type := mkStore {
  traj_len : Z;
  n_traj : Z;
  cursor : Z * Z;
}.

Section Store.
Context {F : Type} `{!Num F}.

#[global] Instance trajectory_interface : TrajectoryInterface store F kw := {
  Trajectory args :=
    match arg_kwargs args !! "traj_len"%string, arg_kwargs args !! "n_traj"%string with
    | Some l, Some n => Ok (mkStore l n (0, 0))
    | _, _ => Raise (CollaboratorError "missing trajectory parameter")
    end;
  trajectory_length := traj_len;
  nnumber_of_trajectories := n_traj;
  reset_trajectory t substep_no traj_no :=
    let s := default 0 substep_no in
    let n := default 0 traj_no in
    Ok (mkStore (traj_len t) (n_traj t) (s, n),
        [array1 [of_Z (n * traj_len t + s)]]);
}.

(** A window of size one: the mean is the last sample. *)
#[global] Instance window_interface : WindowInterface (list F) F.
Proof.
  refine {| RunningAveragedWindow n _ := replicate n (of_Z 0);
            update_stats w sample := sample;
            mean w := w |}.
  - intros n _. apply length_replicate.
  - intros w sample Hlen. exact Hlen.
Defined.

(** No contact: all six components are zero. *)
#[global] Instance contact_interface : ContactInterface F.
Proof.
  refine {| _get_collision_force _ _ _ := replicate 6 (of_Z 0) |}.
  intros _ _ _. apply length_replicate.
Defined.
End Store.

Abbreviation env F := (BaseEnv F reward store (list F)).

(** What the base constructor leaves for a model with the given
    specification and native actuator bounds [lo] and [hi]. *)
Definition super {F} (spec : list spec_entry) (idx : gmap string (list Z))
    (lo hi : list F) : MultiMuJoCo F :=
  mkMultiMuJoCo (mkObservationHelper spec idx [])
    (mkMDPInfo (mkBox [] []) (mkBox lo hi)) (mkMjData ∅ ∅ ∅) 10.

(** An environment put together field by field. *)
Definition make {F} `{!Num F} (spec : list spec_entry) (idx : gmap string (list Z))
    (traj : option store) (random_start : bool) (init_step_no : option Z)
    (use_foot_forces : bool) (norm_mean norm_delta : list F) : env F :=
  mkBaseEnv (mkObservationHelper spec idx [])
    (mkMDPInfo (mkBox [] []) (mkBox [] [])) (mkMjData ∅ ∅ ∅) 10
    No use_foot_forces norm_mean norm_delta [] (replicate 12 (of_Z 0))
    traj random_start init_step_no [].


(** Four joint positions, the first two being x and y. *)
Definition walker_spec : list spec_entry :=
  [("q_pelvis_tx", "pelvis_tx", JOINT_POS); ("q_pelvis_ty", "pelvis_ty", JOINT_POS);
   ("q_pelvis_tz", "pelvis_tz", JOINT_POS); ("q_hip", "hip", JOINT_POS)]%string.

Definition walker_idx : gmap string (list Z) :=
  {[ "q_pelvis_tx" := [0]; "q_pelvis_ty" := [1];
     "q_pelvis_tz" := [2]; "q_hip" := [3] ]}%string.

(** A walker on binary64 with these joints and one actuator, as the
    constructor returns it. *)
Definition walker : env float :=
  match __init__ (V:=Z) (super walker_spec walker_idx [(-2)%float] [2%float])
          None None None false None true with
  | Ok e => e
  | Raise _ => make walker_spec walker_idx None false None true [] []
  end.

(** One joint, a store of two trajectories of ten samples, and a fixed
    initial step. *)
Definition hip_spec : list spec_entry := [("q_hip", "hip", JOINT_POS)]%string.

Definition with_init_step (k : option Z) : env Q :=
  make hip_spec {[ "q_hip"%string := [0] ]} (Some (mkStore 10 2 (0, 0)))
    false k false [] [].

(** Four joint positions on exact numbers, nothing loaded. *)
Definition exact_walker : env Q :=
  make walker_spec walker_idx None false None false [] [].

(** The dataset of a store: the number of its samples. *)
#[global] Instance dataset_interface : DatasetInterface store Z := {
  trajectory_create_dataset t ignore_keys := Ok (traj_len t * n_traj t);
}.

Local Set Warnings "-clear-no-such-hyp".

(** A model as the set of its named elements. *)
#[global] Instance xml_interface
  : XmlInterface (gset (string * string)) (string * string).
Proof.
  refine {| find h namespace name :=
              if decide ((namespace, name) ∈ h) then Some (namespace, name) else None;
            remove e h := h ∖ {[e]} |}.
  - intros h namespace name e Hfind. case_decide; [| done].
    injection Hfind as <-. rewrite decide_False; [done | set_solver].
  - intros h namespace name e namespace' name' Hfind Hne. case_decide; [| done].
    injection Hfind as <-.
    destruct (decide ((namespace', name') ∈ h)).
    + rewrite decide_True; [done | set_solver].
    + rewrite decide_False; [done | set_solver].
Defined.

(** A walker on exact numbers that starts at random, and one with a
    site rotation in its specification. *)
Definition random_walker : env Q :=
  make hip_spec {[ "q_hip"%string := [0] ]} (Some (mkStore 10 2 (0, 0)))
    true None false [] [].

Definition rotating_spec : list spec_entry :=
  [("q_pelvis_tx", "pelvis_tx", JOINT_POS); ("q_pelvis_ty", "pelvis_ty", JOINT_POS);
   ("r_foot", "foot", SITE_ROT)]%string.

Definition rotating_walker : env Q :=
  make rotating_spec ∅ None false None false [] [].

(** The walker on binary64 with trajectories loaded by the constructor. *)
Definition bounded_super : MultiMuJoCo float :=
  mkMultiMuJoCo (mkObservationHelper walker_spec walker_idx [])
    (mkMDPInfo (mkBox [0; 0; 0; 0]%float [1; 1; 1; 1]%float)
               (mkBox [(-2)%float] [2%float]))
    (mkMjData ∅ ∅ ∅) 10.

Definition loaded_walker : env float :=
  match __init__ (V:=Z) bounded_super
          None None (Some {[ "traj_len"%string := 10; "n_traj"%string := 2 ]})
          true None true with
  | Ok e => e
  | Raise _ => make walker_spec walker_idx None false None true [] []
  end.

End Demo.

(** * Properties *)

(** ** Shared lemmas *)

Lemma broadcast_same_length {F} (op : F → F → F) (xs ys : list F) :
  length xs = length ys → broadcast op xs ys = Ok (zip_with op xs ys).
Proof. intros Hlen. unfold broadcast. by rewrite decide_True. Qed.

(** ** Action preprocessing *)

Section ActionBounds.
Context {R T W V : Type}.
Context `{!RewardInterface R (gmap string V), !TrajectoryInterface T Q (gmap string V),
          !WindowInterface W Q, !ContactInterface Q}.
Implicit Types env : BaseEnv Q R T W.





End ActionBounds.



(** ** Running a computation *)

Ltac simplify_decide :=
  repeat first
    [ rewrite decide_True by (split; congruence)
    | rewrite decide_False by (intros [? ?]; congruence) ].

Ltac unfold_env :=
  unfold set_data, set_trajectories, set_mean_grf, set_obs_helper, reward_reset,
    emit, set_reward_function;
  simpl.

Ltac run :=
  unfold mbind, mret, M_bind, M_ret, modify, get, raise, lift, pass, py_assert;
  simpl.

Section Theory.
Context {F R T W V : Type}.
Context `{!Num F, !RewardInterface R (gmap string V),
          !TrajectoryInterface T F (gmap string V),
          !WindowInterface W F, !ContactInterface F}.
Implicit Types env : BaseEnv F R T W.
Implicit Types sample : list (ndarray F).

Lemma set_data_same env : set_data (_data env) env = env.
Proof. by destruct env. Qed.

(** ** Restoring the simulator state *)

Lemma set_sim_state_entry_other key name ot (value : ndarray F) env :
  ot ≠ JOINT_POS → ot ≠ JOINT_VEL → ot ≠ SITE_ROT →
  set_sim_state_entry ((key, name, ot), value) env = (env, Ok tt).
Proof.
  intros H1 H2 H3. unfold set_sim_state_entry.
  rewrite !decide_False by done. reflexivity.
Qed.

Lemma set_sim_state_entry_qpos key name (value : ndarray F) env :
  set_sim_state_entry ((key, name, JOINT_POS), value) env
  = (write_qpos name value env, Ok tt).
Proof. reflexivity. Qed.

Lemma set_sim_state_entry_qvel key name (value : ndarray F) env :
  set_sim_state_entry ((key, name, JOINT_VEL), value) env
  = (write_qvel name value env, Ok tt).
Proof. reflexivity. Qed.

Lemma set_sim_state_entry_xmat key name (value : ndarray F) env :
  set_sim_state_entry ((key, name, SITE_ROT), value) env
  = if bool_decide (length (shape value) = 2%nat)
    then (write_xmat name value env, Ok tt)
    else (env, Raise AssertionError).
Proof. unfold set_sim_state_entry. run. by case_bool_decide. Qed.

Lemma for_in_cons {A} (x : A) xs (body : A → M F R T W unit) env :
  for_in (x :: xs) body env
  = match body x env with
    | (env', Raise e) => (env', Raise e)
    | (env', Ok _) => for_in xs body env'
    end.
Proof. reflexivity. Qed.

Lemma written_cons ot name (p : spec_entry * ndarray F) pairs old :
  written ot name (p :: pairs) old
  = written ot name pairs
      (if decide (p.1.2 = ot ∧ p.1.1.2 = name) then Some p.2 else old).
Proof. reflexivity. Qed.

(** The loop on well-ranked pairs: it ends normally, touches the
    simulator data only, and each field holds what was written last. *)
Lemma for_in_entries_ok (pairs : list (spec_entry * ndarray F)) env :
  forallb rank_ok pairs = true →
  ∃ d', for_in pairs set_sim_state_entry env = (set_data d' env, Ok tt) ∧
    ∀ n, qpos d' !! n = written JOINT_POS n pairs (qpos (_data env) !! n)
       ∧ qvel d' !! n = written JOINT_VEL n pairs (qvel (_data env) !! n)
       ∧ xmat d' !! n = written SITE_ROT n pairs (xmat (_data env) !! n).
Proof.
  revert env. induction pairs as [| [[[key name] ot] value] pairs IH]; intros env Hrank.
  - exists (_data env). by rewrite set_data_same.
  - simpl in Hrank. apply andb_prop in Hrank as [Hhd Htl].
    unfold rank_ok in Hhd. apply bool_decide_eq_true in Hhd. simpl in Hhd.
    rewrite for_in_cons.
    assert (Hstep : ∃ d1, set_sim_state_entry (key, name, ot, value) env
                          = (set_data d1 env, Ok tt)
              ∧ ∀ n, qpos d1 !! n
                     = (if decide (ot = JOINT_POS ∧ name = n) then Some value
                        else qpos (_data env) !! n)
                   ∧ qvel d1 !! n
                     = (if decide (ot = JOINT_VEL ∧ name = n) then Some value
                        else qvel (_data env) !! n)
                   ∧ xmat d1 !! n
                     = (if decide (ot = SITE_ROT ∧ name = n) then Some value
                        else xmat (_data env) !! n)).
    { destruct (decide (ot = JOINT_POS)) as [-> | Hpos];
        [| destruct (decide (ot = JOINT_VEL)) as [-> | Hvel];
           [| destruct (decide (ot = SITE_ROT)) as [-> | Hrot]]].
      - rewrite set_sim_state_entry_qpos. eexists. split; [reflexivity |].
        intros n. simpl. rewrite lookup_insert.
        destruct (decide (name = n)); by simplify_decide.
      - rewrite set_sim_state_entry_qvel. eexists. split; [reflexivity |].
        intros n. simpl. rewrite lookup_insert.
        destruct (decide (name = n)); by simplify_decide.
      - rewrite set_sim_state_entry_xmat, bool_decide_eq_true_2 by auto.
        eexists. split; [reflexivity |].
        intros n. simpl. rewrite lookup_insert.
        destruct (decide (name = n)); by simplify_decide.
      - rewrite set_sim_state_entry_other by done.
        exists (_data env). rewrite set_data_same. split; [reflexivity |].
        intros n. by simplify_decide. }
    destruct Hstep as (d1 & Hs & Hd1).
    destruct (IH (set_data d1 env) Htl) as (d' & Hrest & Hd').
    exists d'. rewrite Hs. split; [exact Hrest |]. intros n.
    destruct (Hd' n) as (Hq & Hv & Hx). destruct (Hd1 n) as (Hq1 & Hv1 & Hx1).
    rewrite Hq, Hv, Hx, !written_cons. simpl. by rewrite Hq1, Hv1, Hx1.
Qed.

(** The loop stops with an assertion failure at the first rotation whose
    value is not of rank two. *)
Lemma for_in_entries_bad_rank (pairs : list (spec_entry * ndarray F)) env :
  forallb rank_ok pairs = false →
  snd (for_in pairs set_sim_state_entry env) = Raise AssertionError.
Proof.
  revert env. induction pairs as [| [[[key name] ot] value] pairs IH]; intros env Hrank.
  - discriminate.
  - rewrite for_in_cons. simpl in Hrank.
    destruct (rank_ok (key, name, ot, value)) eqn:Hhd.
    + destruct (for_in_entries_ok [(key, name, ot, value)] env) as (d1 & Hone & _).
      { simpl. by rewrite Hhd. }
      rewrite for_in_cons in Hone.
      destruct (set_sim_state_entry (key, name, ot, value) env) as [env1 [e | []]];
        simpl in Hone; [congruence |].
      by apply IH.
    + unfold rank_ok in Hhd. apply bool_decide_eq_false in Hhd. simpl in Hhd.
      destruct (decide (ot = SITE_ROT)) as [-> | Hrot]; [| naive_solver].
      rewrite set_sim_state_entry_xmat, bool_decide_eq_false_2; [done |].
      naive_solver.
Qed.

(** C5.  [set_sim_state] fails its first assertion unless the sample is
    as long as the observation specification.  Otherwise it pairs each
    entry with the value at its position; joint positions, joint
    velocities and site rotations are written under the name of the entry
    (each field ends up with the last value written to it, and nothing
    else of the environment changes); a rotation whose value is not of
    rank two fails an assertion; an entry of any other kind writes
    nothing. *)
Theorem set_sim_state_effect env sample :
  (length sample ≠ length (observation_spec (obs_helper env)) →
     set_sim_state sample env = (env, Raise AssertionError))
  ∧ (length sample = length (observation_spec (obs_helper env)) →
     forallb rank_ok (paired env sample) = true →
     ∃ d', set_sim_state sample env = (set_data d' env, Ok tt) ∧
       ∀ name,
         qpos d' !! name
         = written JOINT_POS name (paired env sample) (qpos (_data env) !! name)
         ∧ qvel d' !! name
           = written JOINT_VEL name (paired env sample) (qvel (_data env) !! name)
         ∧ xmat d' !! name
           = written SITE_ROT name (paired env sample) (xmat (_data env) !! name))
  ∧ (length sample = length (observation_spec (obs_helper env)) →
     forallb rank_ok (paired env sample) = false →
     snd (set_sim_state sample env) = Raise AssertionError)
  ∧ (∀ key name ot value,
       ot ≠ JOINT_POS → ot ≠ JOINT_VEL → ot ≠ SITE_ROT →
       set_sim_state_entry ((key, name, ot), value) env = (env, Ok tt)).
Proof.
  split; [| split; [| split]].
  - intros Hlen. unfold set_sim_state. run.
    by rewrite bool_decide_eq_false_2.
  - intros Hlen Hrank. unfold set_sim_state. run.
    rewrite bool_decide_eq_true_2 by done. simpl.
    by apply for_in_entries_ok.
  - intros Hlen Hrank. unfold set_sim_state. run.
    rewrite bool_decide_eq_true_2 by done. simpl.
    by apply for_in_entries_bad_rank.
  - intros. by apply set_sim_state_entry_other.
Qed.

(** Whatever the sample, [set_sim_state] changes nothing but the simulator
    data, and an assertion is all it can fail. *)
Lemma for_in_entries_outcome (pairs : list (spec_entry * ndarray F)) env :
  ∃ d r, for_in pairs set_sim_state_entry env = (set_data d env, r)
         ∧ (r = Ok tt ∨ r = Raise AssertionError).
Proof.
  revert env. induction pairs as [| [[[key name] ot] value] pairs IH]; intros env.
  - exists (_data env), (Ok tt). rewrite set_data_same. by split; [| left].
  - rewrite for_in_cons.
    assert (Hstep : ∃ d1 r1, set_sim_state_entry (key, name, ot, value) env
                             = (set_data d1 env, r1)
                             ∧ (r1 = Ok tt ∨ r1 = Raise AssertionError)).
    { destruct (decide (ot = JOINT_POS)) as [-> | Hpos];
        [| destruct (decide (ot = JOINT_VEL)) as [-> | Hvel];
           [| destruct (decide (ot = SITE_ROT)) as [-> | Hrot]]].
      - rewrite set_sim_state_entry_qpos. eexists _, _. by split; [| left].
      - rewrite set_sim_state_entry_qvel. eexists _, _. by split; [| left].
      - rewrite set_sim_state_entry_xmat. case_bool_decide.
        + eexists _, _. by split; [| left].
        + exists (_data env). eexists. rewrite set_data_same. by split; [| right].
      - rewrite set_sim_state_entry_other by done.
        exists (_data env). eexists. rewrite set_data_same. by split; [| left]. }
    destruct Hstep as (d1 & r1 & Hs & [-> | ->]); rewrite Hs.
    + destruct (IH (set_data d1 env)) as (d & r & Hrest & Hr).
      exists d, r. by split.
    + eexists _, _. by split; [| right].
Qed.

Lemma set_sim_state_outcome sample env :
  ∃ d r, set_sim_state sample env = (set_data d env, r)
         ∧ (r = Ok tt ∨ r = Raise AssertionError).
Proof.
  unfold set_sim_state. run. case_bool_decide; simpl.
  - apply for_in_entries_outcome.
  - exists (_data env). eexists. rewrite set_data_same. by split; [| right].
Qed.

(** ** Initialising from an observation *)

Lemma init_sim_from_obs_run (obs : ndarray F) env :
  _init_sim_from_obs obs env
  = if bool_decide (length (shape obs) = 1%nat) then
      if bool_decide (length (observation_spec (obs_helper env))
                      ≤ 2 + length (items obs))%nat
      then set_sim_state (take (length (observation_spec (obs_helper env)))
                            (Scalar (of_Z 0) :: Scalar (of_Z 0) :: items obs)) env
      else (env, Raise AssertionError)
    else (env, Raise AssertionError).
Proof.
  unfold _init_sim_from_obs. run.
  case_bool_decide; [| done]. simpl. by case_bool_decide.
Qed.

Lemma init_sim_from_obs_outcome (obs : ndarray F) env :
  ∃ d r, _init_sim_from_obs obs env = (set_data d env, r)
         ∧ (r = Ok tt ∨ r = Raise AssertionError).
Proof.
  rewrite init_sim_from_obs_run.
  repeat case_bool_decide; try apply set_sim_state_outcome;
    exists (_data env); eexists; rewrite set_data_same; by split; [| right].
Qed.

(** C4, as the code has it.  A value that is not of rank one fails the
    first assertion.  Two zeros are put in front; if the result is shorter
    than the observation specification the second assertion fails and
    nothing is written (there is no padding); otherwise the result is cut
    to exactly the length of the specification and handed to
    [set_sim_state]. *)
Theorem init_sim_from_obs_effect env (obs : ndarray F) :
  (length (shape obs) ≠ 1%nat →
     _init_sim_from_obs obs env = (env, Raise AssertionError))
  ∧ (length (shape obs) = 1%nat →
     (2 + length (items obs) < length (observation_spec (obs_helper env)))%nat →
     _init_sim_from_obs obs env = (env, Raise AssertionError))
  ∧ (length (shape obs) = 1%nat →
     (length (observation_spec (obs_helper env)) ≤ 2 + length (items obs))%nat →
     length (take (length (observation_spec (obs_helper env)))
               (Scalar (of_Z 0) :: Scalar (of_Z 0) :: items obs))
     = length (observation_spec (obs_helper env))
     ∧ _init_sim_from_obs obs env
       = set_sim_state (take (length (observation_spec (obs_helper env)))
                          (Scalar (of_Z 0) :: Scalar (of_Z 0) :: items obs)) env).
Proof.
  split; [| split].
  - intros Hrank. rewrite init_sim_from_obs_run.
    by rewrite bool_decide_eq_false_2.
  - intros Hrank Hshort. rewrite init_sim_from_obs_run.
    rewrite bool_decide_eq_true_2 by done.
    by rewrite bool_decide_eq_false_2 by lia.
  - intros Hrank Hlong. split.
    + rewrite length_take. simpl. lia.
    + rewrite init_sim_from_obs_run.
      by rewrite !bool_decide_eq_true_2 by done.
Qed.

(** ** Episode initialisation *)

Lemma setup_with_obs (obs : ndarray F) env :
  setup (Some obs) env = _init_sim_from_obs obs (reward_reset env).
Proof. reflexivity. Qed.

(** Resetting the store and setting the simulator: the call is recorded,
    a failure of the store is passed on, and otherwise the store is the
    one after the reset and the simulator data come from the sample. *)
Lemma restore_from_trajectory_outcome (t : T) a b env :
  match reset_trajectory t a b with
  | Raise e =>
      restore_from_trajectory t a b env = (emit (Reset_trajectory a b) env, Raise e)
  | Ok (t', sample) =>
      restore_from_trajectory t a b env
      = set_sim_state sample
          (set_trajectories (Some t') (emit (Reset_trajectory a b) env))
  end.
Proof.
  unfold restore_from_trajectory, trajectories_reset_trajectory. run.
  destruct (reset_trajectory t a b) as [e | [t' sample]]; reflexivity.
Qed.

Lemma setup_random_start env t :
  trajectories env = Some t → _random_start env = true → _init_step_no env = None →
  setup None env = restore_from_trajectory t None None (reward_reset env).
Proof.
  intros Ht Hr Hk. unfold setup. run. rewrite Ht, Hr, Hk. reflexivity.
Qed.

Lemma setup_default env :
  _random_start env = false → _init_step_no env = None →
  setup None env = (reward_reset env, Ok tt).
Proof.
  intros Hr Hk. unfold setup. run. rewrite Hr, Hk.
  rewrite !andb_false_r. simpl. by destruct (trajectories env).
Qed.

(** The fixed initial step, when it is not zero: past the bound the
    assertion fails; up to the bound (the bound included) the store is
    reset to [(k mod traj_len, int(k / traj_len))] and the simulator is
    set to the sample. *)
Lemma setup_fixed_init_step env t k :
  trajectories env = Some t → _random_start env = false →
  _init_step_no env = Some k → k ≠ 0 →
  (trajectory_length t * nnumber_of_trajectories t < k →
     setup None env = (reward_reset env, Raise AssertionError))
  ∧ (k ≤ trajectory_length t * nnumber_of_trajectories t →
     trajectory_length t = 0 →
     setup None env = (reward_reset env, Raise ZeroDivisionError))
  ∧ (k ≤ trajectory_length t * nnumber_of_trajectories t →
     trajectory_length t ≠ 0 →
     setup None env
     = restore_from_trajectory t (Some (k `mod` trajectory_length t))
         (Some (k `quot` trajectory_length t)) (reward_reset env)).
Proof.
  intros Ht Hr Hk Hk0.
  split; [| split].
  - intros Hbound. unfold setup. run. rewrite Ht, Hr, Hk. simpl.
    rewrite (bool_decide_eq_true_2 (k ≠ 0)) by done.
    rewrite bool_decide_eq_false_2 by lia. reflexivity.
  - intros Hbound Hlen. unfold setup. run. rewrite Ht, Hr, Hk. simpl.
    rewrite (bool_decide_eq_true_2 (k ≠ 0)) by done.
    rewrite bool_decide_eq_true_2 by lia. simpl.
    unfold py_mod. by rewrite decide_True.
  - intros Hbound Hlen. unfold setup. run. rewrite Ht, Hr, Hk. simpl.
    rewrite (bool_decide_eq_true_2 (k ≠ 0)) by done.
    rewrite bool_decide_eq_true_2 by lia. simpl.
    unfold py_mod, py_int_truediv. rewrite !decide_False by done. reflexivity.
Qed.

Lemma setup_init_step_zero env t :
  trajectories env = Some t → _random_start env = false →
  _init_step_no env = Some 0 →
  setup None env = (reward_reset env, Ok tt).
Proof.
  intros Ht Hr Hk. unfold setup. run. rewrite Ht, Hr, Hk. reflexivity.
Qed.

Lemma setup_error_random_start env :
  trajectories env = None → _random_start env = true →
  setup None env
  = (reward_reset env,
     Raise (ValueError "Random start not possible without trajectory data.")).
Proof. intros Ht Hr. unfold setup. run. by rewrite Ht, Hr. Qed.

Lemma setup_error_init_step env :
  trajectories env = None → _random_start env = false →
  _init_step_no env ≠ None →
  setup None env
  = (reward_reset env,
     Raise (ValueError
              "Setting an initial step is not possible without trajectory data.")).
Proof.
  intros Ht Hr Hk. unfold setup. run. rewrite Ht, Hr. simpl.
  by rewrite bool_decide_eq_true_2.
Qed.

Lemma setup_error_both env :
  trajectories env ≠ None → _init_step_no env ≠ None →
  _random_start env = true →
  setup None env
  = (reward_reset env,
     Raise (ValueError "Either use a random start or set an initial step, not both.")).
Proof.
  intros Ht Hk Hr. unfold setup. run. rewrite Hr.
  rewrite (bool_decide_eq_false_2 (trajectories env = None)) by done. simpl.
  by rewrite bool_decide_eq_true_2.
Qed.

(** C1 at the fixed initial step [0].  The step is set (it is not
    [None], and the validation treats it as set), but the branch that
    would use it tests its truth value: the call returns normally after
    the reward reset, the store is not asked for a sample and keeps its
    place, and the simulator is left as it was. *)
Theorem setup_init_step_zero_ignored env t :
  trajectories env = Some t → _random_start env = false →
  _init_step_no env = Some 0 →
  setup None env = (reward_reset env, Ok tt)
  ∧ log (fst (setup None env)) = log env ++ [Reset_state]
  ∧ trajectories (fst (setup None env)) = Some t
  ∧ _data (fst (setup None env)) = _data env.
Proof.
  intros Ht Hr Hk. rewrite (setup_init_step_zero env t) by done.
  repeat split. simpl. exact Ht.
Qed.

(** For a positive step within the bound and a positive trajectory
    length, the sample is [(k // traj_len, k % traj_len)]. *)
Lemma setup_positive_init_step env t k :
  trajectories env = Some t → _random_start env = false →
  _init_step_no env = Some k →
  0 < k ≤ trajectory_length t * nnumber_of_trajectories t →
  0 < trajectory_length t →
  setup None env
  = restore_from_trajectory t (Some (k `mod` trajectory_length t))
      (Some (k `div` trajectory_length t)) (reward_reset env).
Proof.
  intros Ht Hr Hk [Hpos Hbound] Hlen.
  assert (Hk0 : k ≠ 0) by lia.
  destruct (setup_fixed_init_step env t k Ht Hr Hk Hk0) as (_ & _ & Hin).
  rewrite Hin by lia. by rewrite Z.quot_div_nonneg by lia.
Qed.

(** C2.  Without an observation, [setup] raises a [ValueError] of its
    own in three cases, tested in this order: a random start without
    trajectories; a fixed initial step without trajectories; both a
    random start and a fixed initial step.  In each the environment is the
    one after the reward reset.  With trajectories and at most one of the
    two, an exception can only be an assertion failure, a division by a
    trajectory length of zero, or one raised by the store; with neither,
    the call ends normally and leaves the simulator as it was. *)
Theorem setup_configuration_errors env :
  (trajectories env = None → _random_start env = true →
     setup None env
     = (reward_reset env,
        Raise (ValueError "Random start not possible without trajectory data.")))
  ∧ (trajectories env = None → _random_start env = false →
     _init_step_no env ≠ None →
     setup None env
     = (reward_reset env,
        Raise (ValueError
                 "Setting an initial step is not possible without trajectory data.")))
  ∧ (trajectories env ≠ None → _init_step_no env ≠ None →
     _random_start env = true →
     setup None env
     = (reward_reset env,
        Raise (ValueError
                 "Either use a random start or set an initial step, not both.")))
  ∧ (trajectories env ≠ None →
     _init_step_no env = None ∨ _random_start env = false →
     ∀ e, snd (setup None env) = Raise e →
       e = AssertionError ∨ e = ZeroDivisionError
       ∨ ∃ t a b, trajectories env = Some t ∧ reset_trajectory t a b = Raise e)
  ∧ (_random_start env = false → _init_step_no env = None →
     setup None env = (reward_reset env, Ok tt)
     ∧ _data (fst (setup None env)) = _data env).
Proof.
  split; [| split; [| split; [| split]]].
  - apply setup_error_random_start.
  - apply setup_error_init_step.
  - apply setup_error_both.
  - intros Ht Hflags e He.
    destruct (trajectories env) as [t |] eqn:Etraj; [clear Ht | done].
    assert (Hrestore : ∀ a b,
              snd (restore_from_trajectory t a b (reward_reset env)) = Raise e →
              e = AssertionError ∨ e = ZeroDivisionError
              ∨ ∃ t' a' b', Some t = Some t' ∧ reset_trajectory t' a' b' = Raise e).
    { intros a b Hres.
      pose proof (restore_from_trajectory_outcome t a b (reward_reset env)) as Hout.
      destruct (reset_trajectory t a b) as [e' | [t' sample]] eqn:Ereset.
      - rewrite Hout in Hres. simpl in Hres. injection Hres as ->. eauto 8.
      - rewrite Hout in Hres.
        destruct (set_sim_state_outcome sample
                    (set_trajectories (Some t')
                       (emit (Reset_trajectory a b) (reward_reset env))))
          as (d & r & Hs & [-> | ->]); rewrite Hs in Hres; simpl in Hres.
        + discriminate.
        + injection Hres as <-. by left. }
    destruct (_random_start env) eqn:Hr.
    + destruct Hflags as [Hk | ?]; [| done].
      rewrite (setup_random_start env t) in He by done. eauto.
    + destruct (_init_step_no env) as [k |] eqn:Hk.
      * destruct (decide (k = 0)) as [-> | Hk0].
        { rewrite (setup_init_step_zero env t) in He by done. done. }
        destruct (setup_fixed_init_step env t k Etraj Hr Hk Hk0)
          as (Hover & Hzero & Hin).
        destruct (decide (k ≤ trajectory_length t * nnumber_of_trajectories t));
          [destruct (decide (trajectory_length t = 0)) |].
        -- rewrite Hzero in He by done. injection He as <-. auto.
        -- rewrite Hin in He by done. eauto.
        -- rewrite Hover in He by lia. injection He as <-. auto.
      * rewrite setup_default in He by done. done.
  - intros Hr Hk. by rewrite setup_default.
Qed.

(** What [setup] can change: the simulator data, the store, the reward
    strategy (reset once) and the record of calls (the reset first, then at
    most a reset of the store). *)
Lemma setup_frame (obs : option (ndarray F)) env :
  ∃ d t rest,
    fst (setup obs env)
    = mkBaseEnv (obs_helper env) (info env) d (_n_substeps env)
        (reset_state (_reward_function env)) (_use_foot_forces env)
        (norm_act_mean env) (norm_act_delta env) (_kinematic_obs_mask env)
        (mean_grf env) t (_random_start env) (_init_step_no env)
        (log env ++ (Reset_state :: rest))
    ∧ Reset_state ∉ rest.
Proof.
  assert (Hdata : ∀ (c : M F R T W unit),
            (∃ d r, c (reward_reset env) = (set_data d (reward_reset env), r)) →
            ∃ d t rest,
              fst (c (reward_reset env))
              = mkBaseEnv (obs_helper env) (info env) d (_n_substeps env)
                  (reset_state (_reward_function env)) (_use_foot_forces env)
                  (norm_act_mean env) (norm_act_delta env) (_kinematic_obs_mask env)
                  (mean_grf env) t (_random_start env) (_init_step_no env)
                  (log env ++ (Reset_state :: rest))
              ∧ Reset_state ∉ rest).
  { intros c (d & r & ->). exists d, (trajectories env), [].
    split; [reflexivity | apply not_elem_of_nil]. }
  assert (Hstay : ∀ r : exn + unit,
            ∃ d t rest,
              fst (reward_reset env, r)
              = mkBaseEnv (obs_helper env) (info env) d (_n_substeps env)
                  (reset_state (_reward_function env)) (_use_foot_forces env)
                  (norm_act_mean env) (norm_act_delta env) (_kinematic_obs_mask env)
                  (mean_grf env) t (_random_start env) (_init_step_no env)
                  (log env ++ (Reset_state :: rest))
              ∧ Reset_state ∉ rest).
  { intros r. exists (_data env), (trajectories env), [].
    split; [reflexivity | apply not_elem_of_nil]. }
  assert (Hrestore : ∀ t a b,
            ∃ d t' rest,
              fst (restore_from_trajectory t a b (reward_reset env))
              = mkBaseEnv (obs_helper env) (info env) d (_n_substeps env)
                  (reset_state (_reward_function env)) (_use_foot_forces env)
                  (norm_act_mean env) (norm_act_delta env) (_kinematic_obs_mask env)
                  (mean_grf env) t' (_random_start env) (_init_step_no env)
                  (log env ++ (Reset_state :: rest))
              ∧ Reset_state ∉ rest).
  { intros t a b.
    pose proof (restore_from_trajectory_outcome t a b (reward_reset env)) as Hout.
    assert (Hnot : Reset_state ∉ [Reset_trajectory a b]).
    { intros Hin. apply list_elem_of_singleton in Hin. discriminate. }
    destruct (reset_trajectory t a b) as [e | [t' sample]]; rewrite Hout.
    - exists (_data env), (trajectories env), [Reset_trajectory a b].
      split; [| done]. unfold_env. by rewrite <- app_assoc.
    - destruct (set_sim_state_outcome sample
                  (set_trajectories (Some t')
                     (emit (Reset_trajectory a b) (reward_reset env))))
        as (d & r & -> & _).
      exists d, (Some t'), [Reset_trajectory a b].
      split; [| done]. unfold_env. by rewrite <- app_assoc. }
  destruct obs as [obs |].
  - rewrite setup_with_obs. apply Hdata.
    destruct (init_sim_from_obs_outcome obs (reward_reset env)) as (d & r & Hs & _).
    eauto.
  - destruct (trajectories env) as [t |] eqn:Etraj;
      destruct (_random_start env) eqn:Hr;
      destruct (_init_step_no env) as [k |] eqn:Hk.
    + rewrite setup_error_both by congruence. apply Hstay.
    + rewrite (setup_random_start env t) by done. apply Hrestore.
    + destruct (decide (k = 0)) as [-> | Hk0].
      { rewrite (setup_init_step_zero env t) by done. apply Hstay. }
      destruct (setup_fixed_init_step env t k Etraj Hr Hk Hk0)
        as (Hover & Hzero & Hin).
      destruct (decide (k ≤ trajectory_length t * nnumber_of_trajectories t));
        [destruct (decide (trajectory_length t = 0)) |].
      * rewrite Hzero by done. apply Hstay.
      * rewrite Hin by done. apply Hrestore.
      * rewrite Hover by lia. apply Hstay.
    + rewrite setup_default by done. apply Hstay.
    + rewrite setup_error_random_start by done. apply Hstay.
    + rewrite setup_error_random_start by done. apply Hstay.
    + rewrite setup_error_init_step by congruence. apply Hstay.
    + rewrite setup_default by done. apply Hstay.
Qed.

(** C6.  Whatever the observation and the flags, and whether or not the
    call then raises, [setup] resets the reward strategy: the reset is the
    first thing the call does at a collaborator, there is no second one,
    and the strategy the environment holds afterwards is the old one
    after one [reset_state]. *)
Theorem setup_resets_reward_once (obs : option (ndarray F)) env :
  ∃ rest, log (fst (setup obs env)) = log env ++ (Reset_state :: rest)
          ∧ (Reset_state ∉ rest)
          ∧ _reward_function (fst (setup obs env)) = reset_state (_reward_function env).
Proof.
  destruct (setup_frame obs env) as (d & t & rest & Henv & Hrest).
  exists rest. rewrite Henv. simpl. by repeat split.
Qed.

(** ** Loading trajectories *)

Lemma load_trajectory_run (p : gmap string V) env :
  load_trajectory p env
  = let env1 := if trajectories env is Some _ then emit reload_warning env else env in
    match Trajectory (trajectory_args env p) with
    | Raise e => (env1, Raise e)
    | Ok t => (set_trajectories (Some t) env1, Ok tt)
    end.
Proof.
  unfold load_trajectory, trajectory_args. run.
  destruct (trajectories env) as [old |]; simpl;
    by destruct (Trajectory _) as [e | t].
Qed.

(** C8.  [load_trajectory] warns exactly when a store was loaded before;
    it raises exactly what the constructor of the store raises, so never
    because of the reload; when the constructor succeeds the environment
    holds the fresh store, and a second call replaces the store of the
    first, with a warning. *)
Theorem load_trajectory_replaces (p p' : gmap string V) env :
  log (fst (load_trajectory p env))
  = log env ++ (if trajectories env is Some _ then [reload_warning] else [])
  ∧ (∀ e, snd (load_trajectory p env) = Raise e
          ↔ Trajectory (trajectory_args env p) = Raise e)
  ∧ (∀ t, Trajectory (trajectory_args env p) = Ok t →
          snd (load_trajectory p env) = Ok tt
          ∧ trajectories (fst (load_trajectory p env)) = Some t)
  ∧ (∀ t t', Trajectory (trajectory_args env p) = Ok t →
             Trajectory (trajectory_args env p') = Ok t' →
             snd (load_trajectory p' (fst (load_trajectory p env))) = Ok tt
             ∧ trajectories (fst (load_trajectory p' (fst (load_trajectory p env))))
               = Some t'
             ∧ log (fst (load_trajectory p' (fst (load_trajectory p env))))
               = log (fst (load_trajectory p env)) ++ [reload_warning]).
Proof.
  split; [| split; [| split]].
  - rewrite load_trajectory_run.
    destruct (trajectories env) as [old |], (Trajectory _) as [e | t]; simpl;
      by rewrite ?app_nil_r.
  - intros e. rewrite load_trajectory_run.
    destruct (Trajectory _) as [e' | t]; simpl; split; congruence.
  - intros t Ht. rewrite load_trajectory_run, Ht. done.
  - intros t t' Ht Ht'.
    assert (Hargs : trajectory_args (fst (load_trajectory p env)) p'
                    = trajectory_args env p').
    { rewrite load_trajectory_run, Ht. by destruct (trajectories env) as [old |]. }
    rewrite (load_trajectory_run p'), Hargs, Ht'.
    rewrite load_trajectory_run, Ht. done.
Qed.

(** ** Reward dispatch *)

(** C9.  A reward type other than ["custom"], ["target_velocity"],
    ["x_pos"] and [None] is not implemented; [None] gives the reward that
    does nothing; ["target_velocity"] and ["x_pos"] look up the key
    ["dq_pelvis_tx"], respectively ["q_pelvis_tx"], fail with a [KeyError]
    when it is absent and with an assertion when it does not have exactly
    one index, and otherwise use that index shifted by two. *)
Theorem reward_dispatch (oh : ObservationHelper) (reward_params : option (gmap string V)) :
  (∀ s : string, s ≠ "custom"%string → s ≠ "target_velocity"%string →
     s ≠ "x_pos"%string →
     _get_reward_function (R:=R) oh (Some s) reward_params
     = Raise (NotImplementedError
                "The specified reward has not been implemented: " s))
  ∧ _get_reward_function (R:=R) oh None reward_params = Ok NoReward
  ∧ (obs_idx_map oh !! "dq_pelvis_tx"%string = None →
     _get_reward_function (R:=R) oh (Some "target_velocity"%string) reward_params
     = Raise (KeyError "dq_pelvis_tx"))
  ∧ (∀ idx, obs_idx_map oh !! "dq_pelvis_tx"%string = Some idx →
     length idx ≠ 1%nat →
     _get_reward_function (R:=R) oh (Some "target_velocity"%string) reward_params
     = Raise AssertionError)
  ∧ (∀ i p, obs_idx_map oh !! "dq_pelvis_tx"%string = Some [i] →
     reward_params = Some p →
     _get_reward_function (R:=R) oh (Some "target_velocity"%string) reward_params
     = Ok (TargetVelocityReward (i - 2) p))
  ∧ (obs_idx_map oh !! "q_pelvis_tx"%string = None →
     _get_reward_function (R:=R) oh (Some "x_pos"%string) reward_params
     = Raise (KeyError "q_pelvis_tx"))
  ∧ (∀ idx, obs_idx_map oh !! "q_pelvis_tx"%string = Some idx →
     length idx ≠ 1%nat →
     _get_reward_function (R:=R) oh (Some "x_pos"%string) reward_params
     = Raise AssertionError)
  ∧ (∀ i, obs_idx_map oh !! "q_pelvis_tx"%string = Some [i] →
     _get_reward_function (R:=R) oh (Some "x_pos"%string) reward_params
     = Ok (PosReward (i - 2))).
Proof.
  assert (Hunique : ∀ idx : list Z, length idx ≠ 1%nat →
            unique_idx ((λ i, i - 2) <$> idx) = Raise AssertionError).
  { intros [| i [| i' idx]] Hlen; simpl in *; done. }
  repeat split.
  - intros s H1 H2 H3. unfold _get_reward_function.
    rewrite !decide_False by congruence. reflexivity.
  - intros Hkey. unfold _get_reward_function, get_obs_idx. simpl.
    by rewrite Hkey.
  - intros idx Hkey Hlen. unfold _get_reward_function, get_obs_idx. simpl.
    rewrite Hkey. simpl. by rewrite Hunique.
  - intros i p Hkey ->. unfold _get_reward_function, get_obs_idx. simpl.
    by rewrite Hkey.
  - intros Hkey. unfold _get_reward_function, get_obs_idx. simpl.
    by rewrite Hkey.
  - intros idx Hkey Hlen. unfold _get_reward_function, get_obs_idx. simpl.
    rewrite Hkey. simpl. by rewrite Hunique.
  - intros i Hkey. unfold _get_reward_function, get_obs_idx. simpl.
    by rewrite Hkey.
Qed.

(** ** Reading keys from an observation *)

Lemma list_of_str_length (s : string) :
  length (list_of_str s) = String.length s.
Proof. induction s as [| c s IH]; simpl; by rewrite ?IH. Qed.

Lemma list_of_str_single (s : string) :
  Forall (λ c, String.length c = 1%nat) (list_of_str s).
Proof. induction s as [| c s IH]; simpl; by constructor. Qed.

Lemma mapM_agree {A B} (f g : A → exn + B) (l : list A) :
  Forall (λ x, f x = g x) l → mapM f l = mapM g l.
Proof.
  induction 1 as [| x l Hx _ IH]; [done |].
  simpl. by rewrite Hx, IH.
Qed.

(** C10.  A single string key is split into its characters, and the loop
    looks up each of them.  For a key of more than one character the key
    itself is never among them: the call is the call with the list of
    characters, and what the index map holds for the key has no influence
    on the result. *)
Theorem get_from_obs_string_key env (obs : list F) (k : string) :
  (1 < String.length k)%nat →
  keys_to_list (KeyStr k) = Ok (list_of_str k)
  ∧ length (list_of_str k) = String.length k
  ∧ Forall (λ c, String.length c = 1%nat) (list_of_str k)
  ∧ (k ∉ list_of_str k)
  ∧ _get_from_obs env obs (KeyStr k) = _get_from_obs env obs (KeyList (list_of_str k))
  ∧ ∀ idx,
      _get_from_obs
        (set_obs_helper
           (with_obs_idx_map (<[k := idx]> (obs_idx_map (obs_helper env)))
              (obs_helper env)) env) obs (KeyStr k)
      = _get_from_obs
          (set_obs_helper
             (with_obs_idx_map (delete k (obs_idx_map (obs_helper env)))
                (obs_helper env)) env) obs (KeyStr k).
Proof.
  intros Hlen.
  assert (Hnotin : k ∉ list_of_str k).
  { intros Hin. pose proof (list_of_str_single k) as Hsingle.
    rewrite Forall_forall in Hsingle. specialize (Hsingle k Hin). lia. }
  split; [done |]. split; [apply list_of_str_length |].
  split; [apply list_of_str_single |]. split; [done |]. split; [done |].
  intros idx. unfold _get_from_obs. simpl.
  erewrite mapM_agree; [reflexivity |].
  apply Forall_forall. intros c Hc. unfold get_from_obs. simpl.
  assert (k ≠ c) by (intros ->; done).
  by rewrite lookup_insert_ne, lookup_delete_ne.
Qed.

(** ** The constructor, and assembling the observation *)

Section Construction.
Context `{!Inf F}.

(** What the constructor leaves in the environment: the reward strategy
    of the dispatch, and the mean and half range of the native actuator
    bounds.  A failure of the dispatch is a failure of the constructor. *)
Lemma init_fields super reward_type reward_params (traj_params : option (gmap string V))
    random_start init_step_no use_foot_forces env :
  __init__ super reward_type reward_params traj_params random_start
    init_step_no use_foot_forces = Ok env →
  _get_reward_function (super_obs_helper super) reward_type reward_params
  = Ok (_reward_function env)
  ∧ action_mean (low (action_space (super_info super)))
      (high (action_space (super_info super))) = Ok (norm_act_mean env)
  ∧ action_delta (low (action_space (super_info super)))
      (high (action_space (super_info super))) = Ok (norm_act_delta env)
  ∧ obs_helper env = super_obs_helper super
  ∧ _use_foot_forces env = use_foot_forces.
Proof.
  unfold __init__. intros Hinit.
  destruct (_get_reward_function _ _ _) as [e | r]; [done |]. simpl in Hinit.
  destruct (_get_observation_space _ _) as [obs_low obs_high].
  destruct (action_mean _ _) as [e | m]; [done |]. simpl in Hinit.
  destruct (action_delta _ _) as [e | dl]; [done |]. simpl in Hinit.
  destruct traj_params as [p |]; [case_bool_decide |].
  - rewrite load_trajectory_run in Hinit. simpl in Hinit.
    destruct (Trajectory _) as [e | t]; [done |].
    by injection Hinit as <-.
  - by injection Hinit as <-.
  - by injection Hinit as <-.
Qed.

Lemma init_reward_error super reward_type reward_params
    (traj_params : option (gmap string V)) random_start init_step_no
    use_foot_forces e :
  _get_reward_function (R:=R) (super_obs_helper super) reward_type reward_params
  = Raise e →
  __init__ (T:=T) (W:=W) super reward_type reward_params traj_params random_start
    init_step_no use_foot_forces = Raise e.
Proof. unfold __init__. by intros ->. Qed.


Lemma init_grf_shape super reward_type reward_params (traj_params : option (gmap string V))
    random_start init_step_no use_foot_forces env :
  __init__ super reward_type reward_params traj_params random_start
    init_step_no use_foot_forces = Ok env →
  length (mean (mean_grf env)) = _get_grf_size.
Proof.
  unfold __init__. intros Hinit.
  destruct (_get_reward_function _ _ _) as [e | r]; [done |]. simpl in Hinit.
  destruct (_get_observation_space _ _) as [obs_low obs_high].
  destruct (action_mean _ _) as [e | m]; [done |]. simpl in Hinit.
  destruct (action_delta _ _) as [e | dl]; [done |]. simpl in Hinit.
  assert (Hnew : length (mean (_setup_ground_force_statistics
                                 (W:=W) (super_n_substeps super)))
                 = _get_grf_size) by apply mean_new.
  destruct traj_params as [p |]; [case_bool_decide |].
  - rewrite load_trajectory_run in Hinit. simpl in Hinit.
    destruct (Trajectory _) as [e | t]; [done |].
    injection Hinit as <-. exact Hnew.
  - injection Hinit as <-. exact Hnew.
  - injection Hinit as <-. exact Hnew.
Qed.



End Construction.

End Theory.


(** The theorem at a store of two trajectories of ten samples. *)
Lemma setup_init_step_zero_ignored_witness :
  setup None (Demo.with_init_step (Some 0))
  = (reward_reset (Demo.with_init_step (Some 0)), Ok tt)
  ∧ log (fst (setup None (Demo.with_init_step (Some 0))))
    = log (Demo.with_init_step (Some 0)) ++ [Reset_state]
  ∧ trajectories (fst (setup None (Demo.with_init_step (Some 0))))
    = Some (Demo.mkStore 10 2 (0, 0))
  ∧ _data (fst (setup None (Demo.with_init_step (Some 0))))
    = _data (Demo.with_init_step (Some 0)).
Proof.
  apply (setup_init_step_zero_ignored (Demo.with_init_step (Some 0))
           (Demo.mkStore 10 2 (0, 0))); reflexivity.
Defined.

(** The same store at other steps.  Step [7] is sample [7] of trajectory
    [0]; step [20], the bound itself, passes the assertion and asks the
    store for sample [0] of trajectory [2]; step [21] fails the assertion;
    step [-1] passes it and asks for sample [9] of trajectory [0]. *)
Example setup_init_step_seven :
  log (fst (setup None (Demo.with_init_step (Some 7))))
  = [Reset_state; Reset_trajectory (Some 7) (Some 0)]
  ∧ snd (setup None (Demo.with_init_step (Some 7))) = Ok tt
  ∧ qpos (_data (fst (setup None (Demo.with_init_step (Some 7))))) !! "hip"%string
    = Some (array1 [7%Q]).
Proof. repeat split; vm_compute; reflexivity. Qed.

Example setup_init_step_at_bound :
  log (fst (setup None (Demo.with_init_step (Some 20))))
  = [Reset_state; Reset_trajectory (Some 0) (Some 2)]
  ∧ snd (setup None (Demo.with_init_step (Some 20))) = Ok tt.
Proof. repeat split; vm_compute; reflexivity. Qed.

Example setup_init_step_past_bound :
  setup None (Demo.with_init_step (Some 21))
  = (reward_reset (Demo.with_init_step (Some 21)), Raise AssertionError).
Proof. vm_compute; reflexivity. Qed.

Example setup_init_step_negative :
  log (fst (setup None (Demo.with_init_step (Some (-1)))))
  = [Reset_state; Reset_trajectory (Some 9) (Some 0)]
  ∧ (-1) `div` 10 = -1.
Proof. repeat split; vm_compute; reflexivity. Qed.

(** C4 as stated fails where the observation is too short: with four
    entries in the specification and an observation of one number, the
    three numbers after the zeros are put in front are not padded to four;
    the call fails an assertion and the simulator is not touched. *)
Lemma init_sim_from_obs_short_counterexample :
  length (observation_spec (obs_helper Demo.exact_walker)) = 4%nat
  ∧ _init_sim_from_obs (array1 [1 # 2]%Q) Demo.exact_walker
    = (Demo.exact_walker, Raise AssertionError).
Proof. split; reflexivity. Qed.

(** An observation that is long enough is cut to the specification. *)
Example init_sim_from_obs_truncates :
  snd (_init_sim_from_obs (array1 [1; 2; 3; 4; 5]%Q) Demo.exact_walker) = Ok tt
  ∧ qpos (_data (fst (_init_sim_from_obs (array1 [1; 2; 3; 4; 5]%Q)
                        Demo.exact_walker)))
    = {[ "pelvis_tx" := Scalar 0%Q; "pelvis_ty" := Scalar 0%Q;
         "pelvis_tz" := Scalar 1%Q; "hip" := Scalar 2%Q ]}%string.
Proof. split; vm_compute; reflexivity. Qed.

(** The theorem at the key ["q_hip"]: the lookups are for ["q"], ["_"],
    ["h"], ["i"] and ["p"], and the first of them is a [KeyError]. *)
Lemma get_from_obs_string_key_witness :
  keys_to_list (KeyStr "q_hip") = Ok (list_of_str "q_hip")
  ∧ length (list_of_str "q_hip") = String.length "q_hip"
  ∧ Forall (λ c, String.length c = 1%nat) (list_of_str "q_hip")
  ∧ ("q_hip"%string ∉ list_of_str "q_hip")
  ∧ _get_from_obs Demo.exact_walker [1; 2]%Q (KeyStr "q_hip")
    = _get_from_obs Demo.exact_walker [1; 2]%Q (KeyList (list_of_str "q_hip"))
  ∧ ∀ idx,
      _get_from_obs
        (set_obs_helper
           (with_obs_idx_map
              (<["q_hip"%string := idx]> (obs_idx_map (obs_helper Demo.exact_walker)))
              (obs_helper Demo.exact_walker)) Demo.exact_walker)
        [1; 2]%Q (KeyStr "q_hip")
      = _get_from_obs
          (set_obs_helper
             (with_obs_idx_map
                (delete "q_hip"%string (obs_idx_map (obs_helper Demo.exact_walker)))
                (obs_helper Demo.exact_walker)) Demo.exact_walker)
          [1; 2]%Q (KeyStr "q_hip").
Proof.
  apply (get_from_obs_string_key Demo.exact_walker [1; 2]%Q "q_hip").
  simpl. lia.
Defined.

Example get_from_obs_string_key_fails :
  _get_from_obs Demo.exact_walker [1; 2]%Q (KeyStr "q_hip") = Raise (KeyError "q")
  ∧ _get_from_obs Demo.exact_walker [1; 2]%Q (KeyList ["q_hip"%string]) = Ok [2%Q].
Proof. split; vm_compute; reflexivity. Qed.

(** ** The methods on small environments *)

(** A sample of the right length is written entry by entry; one that is
    too short is refused before anything is written. *)
Example set_sim_state_writes :
  snd (set_sim_state (Scalar <$> [1; 2; 3; 4]%Q) Demo.exact_walker) = Ok tt
  ∧ qpos (_data (fst (set_sim_state (Scalar <$> [1; 2; 3; 4]%Q) Demo.exact_walker)))
    = {[ "pelvis_tx" := Scalar 1%Q; "pelvis_ty" := Scalar 2%Q;
         "pelvis_tz" := Scalar 3%Q; "hip" := Scalar 4%Q ]}%string
  ∧ set_sim_state (Scalar <$> [1; 2; 3]%Q) Demo.exact_walker
    = (Demo.exact_walker, Raise AssertionError).
Proof. repeat split; vm_compute; reflexivity. Qed.

(** A body position is skipped, a rotation needs a matrix. *)
Example set_sim_state_kinds :
  let env := Demo.make
               [("p_torso", "torso", BODY_POS); ("r_foot", "foot", SITE_ROT)]%string
               ∅ None false None false [] [] in
  let matrix := Array [array1 [1; 0]%Q; array1 [0; 1]%Q] in
  _data (fst (set_sim_state [array1 [1; 2; 3]%Q; matrix] env))
  = mkMjData ∅ ∅ {[ "foot"%string := matrix ]}
  ∧ set_sim_state [array1 [1; 2; 3]%Q; array1 [1; 0; 0; 1]%Q] env
    = (env, Raise AssertionError).
Proof. split; vm_compute; reflexivity. Qed.

(** The three configuration errors, and the default start. *)
Example setup_configuration_error_messages :
  snd (setup None (Demo.make Demo.hip_spec ∅ None true (Some 3) false [] [] : Demo.env Q))
  = Raise (ValueError "Random start not possible without trajectory data.")
  ∧ snd (setup None (Demo.make Demo.hip_spec ∅ None false (Some 0) false [] []
                     : Demo.env Q))
    = Raise (ValueError
               "Setting an initial step is not possible without trajectory data.")
  ∧ snd (setup None (Demo.make Demo.hip_spec ∅ (Some (Demo.mkStore 10 2 (0, 0)))
                       true (Some 3) false [] [] : Demo.env Q))
    = Raise (ValueError "Either use a random start or set an initial step, not both.")
  ∧ snd (setup None (Demo.make Demo.hip_spec ∅ None false None false [] []
                     : Demo.env Q))
    = Ok tt.
Proof. repeat split; vm_compute; reflexivity. Qed.

(** Loading twice: one warning, and the second store stays. *)
Example load_trajectory_twice :
  let first : gmap string Z := {[ "traj_len" := 10; "n_traj" := 2 ]}%string in
  let second : gmap string Z := {[ "traj_len" := 5; "n_traj" := 3 ]}%string in
  let env := fst (load_trajectory second
                    (fst (load_trajectory first Demo.exact_walker))) in
  trajectories env = Some (Demo.mkStore 5 3 (0, 0))
  ∧ log env = [reload_warning]
  ∧ log (fst (load_trajectory first Demo.exact_walker)) = [].
Proof. repeat split; vm_compute; reflexivity. Qed.

(** The dispatch on the walker, which has a pelvis position but no pelvis
    velocity. *)
Example reward_dispatch_on_walker :
  let oh := obs_helper Demo.exact_walker in
  _get_reward_function (R:=Demo.reward) (V:=Z) oh (Some "x_pos"%string) None
  = Ok (Demo.Pos (-2))
  ∧ _get_reward_function (R:=Demo.reward) (V:=Z) oh (Some "target_velocity"%string)
      (Some ∅)
    = Raise (KeyError "dq_pelvis_tx")
  ∧ _get_reward_function (R:=Demo.reward) (V:=Z) oh (Some "sparse"%string) None
    = Raise (NotImplementedError
               "The specified reward has not been implemented: " "sparse")
  ∧ _get_reward_function (R:=Demo.reward) (V:=Z) oh None None = Ok Demo.No.
Proof. repeat split; vm_compute; reflexivity. Qed.

(** * More properties *)

Local Set Warnings "-clear-no-such-hyp".

(** ** Reading from observations *)

Section Reading.
Context {F R T W V : Type}.
Context `{!Num F, !RewardInterface R (gmap string V),
          !TrajectoryInterface T F (gmap string V),
          !WindowInterface W F, !ContactInterface F}.
Implicit Types env : BaseEnv F R T W.
Implicit Types obs raw : list F.

Lemma mapM_cons_exn {A B} (f : A → exn + B) (x : A) (l : list A) :
  mapM f (x :: l) = y ← f x; k ← mapM f l; Ok (y :: k).
Proof. reflexivity. Qed.

Lemma mapM_pointwise {A B} (f : A → exn + B) (g : A → B) (l : list A) :
  Forall (λ x, f x = Ok (g x)) l → mapM f l = Ok (g <$> l).
Proof.
  induction 1 as [| x l Hx _ IH]; [done |].
  simpl. by rewrite Hx, IH.
Qed.

Lemma mapM_app_ok {A B} (f : A → exn + B) (l1 l2 : list A) r1 r2 :
  mapM f l1 = Ok r1 → mapM f l2 = Ok r2 → mapM f (l1 ++ l2) = Ok (r1 ++ r2).
Proof.
  revert r1. induction l1 as [| x l1 IH]; intros r1 H1 H2.
  - injection H1 as <-. done.
  - simpl in *. destruct (f x) as [e | y]; [done |]. simpl in *.
    destruct (mapM f l1) as [e | r] eqn:Hl1; [done |]. simpl in *.
    injection H1 as <-. by rewrite (IH r eq_refl H2).
Qed.

Lemma mapM_first_error {A B} (f : A → exn + B) (l1 l2 : list A) x e :
  Forall (λ y, ∃ r, f y = Ok r) l1 → f x = Raise e →
  mapM f (l1 ++ x :: l2) = Raise e.
Proof.
  induction 1 as [| y l1 [r Hy] _ IH]; intros Hx; simpl.
  - by rewrite Hx.
  - rewrite Hy. simpl. by rewrite IH.
Qed.

Lemma index_in_range obs (i : Z) x :
  0 ≤ i → obs !! Z.to_nat i = Some x → index obs i = Ok x.
Proof.
  intros Hi Hx. unfold index. cbv zeta.
  rewrite (bool_decide_eq_false_2 (i < 0)) by lia.
  rewrite bool_decide_eq_true_2 by lia. by rewrite Hx.
Qed.

Lemma index_from_end obs (i : Z) x :
  i < 0 → 0 ≤ Z.of_nat (length obs) + i →
  obs !! Z.to_nat (Z.of_nat (length obs) + i) = Some x → index obs i = Ok x.
Proof.
  intros Hi Hn Hx. unfold index. cbv zeta.
  rewrite (bool_decide_eq_true_2 (i < 0)) by lia.
  rewrite bool_decide_eq_true_2 by lia. by rewrite Hx.
Qed.

(** What the agent's observation holds at a position of the raw sample,
    with the two zeros of [_get_from_obs] in front. *)
Lemma padded_observation_lookup env raw (i : nat) :
  (i < length raw)%nat →
  ([of_Z 0; of_Z 0] ++ _create_observation env raw) !! i
  = if bool_decide (i < 2)%nat then Some (of_Z 0) else raw !! i.
Proof.
  intros Hi.
  assert (Hdrop : (drop 2 raw ++ scalar_op fdiv (mean (mean_grf env)) (of_Z 1000))
                    !! (i - 2)%nat = raw !! (2 + (i - 2))%nat
                  ∨ (i < 2)%nat).
  { destruct (decide (i < 2)%nat); [by right | left].
    rewrite lookup_app_l by (rewrite length_drop; lia). apply lookup_drop. }
  unfold _create_observation. case_bool_decide as Hlt.
  - destruct i as [| [| i]]; [done | done | lia].
  - destruct Hdrop as [Hdrop | ?]; [| lia].
    destruct i as [| [| i]]; [lia | lia |]. simpl in *.
    rewrite Nat.sub_0_r in Hdrop.
    destruct (_use_foot_forces env); [exact Hdrop |].
    apply lookup_drop.
Qed.

(** [_get_from_obs] undoes [_create_observation]: on the agent's
    observation of a raw sample, the entries of a key are the raw entries
    at the indices of the key, with zero for x and y (indices 0 and 1). *)
Theorem get_from_obs_of_created_observation env raw (key : string) (idx : list Z) :
  obs_idx_map (obs_helper env) !! key = Some idx →
  Forall (λ i, 0 ≤ i < Z.of_nat (length raw)) idx →
  _get_from_obs env (_create_observation env raw) (KeyList [key])
  = Ok ((λ i, if bool_decide (i < 2) then of_Z 0
              else default (of_Z 0) (raw !! Z.to_nat i)) <$> idx).
Proof.
  intros Hkey Hidx. unfold _get_from_obs. simpl.
  unfold get_from_obs at 1. rewrite Hkey.
  rewrite (mapM_pointwise _
             (λ i, if bool_decide (i < 2) then of_Z 0
                   else default (of_Z 0) (raw !! Z.to_nat i))).
  { simpl. by rewrite app_nil_r. }
  eapply Forall_impl; [exact Hidx |]. intros i [Hlo Hhi]. simpl.
  apply index_in_range; [done |].
  change (of_Z 0 :: of_Z 0 :: _create_observation env raw)
    with ([of_Z 0; of_Z 0] ++ _create_observation env raw).
  rewrite padded_observation_lookup by lia.
  destruct (lookup_lt_is_Some_2 raw (Z.to_nat i)) as [x Hx]; [lia |].
  rewrite Hx. simpl.
  case_bool_decide; case_bool_decide; (done || lia).
Qed.

(** The failures of [_get_from_obs]: no key at all (an empty list or the
    empty string) leaves [np.concatenate] without an array; an argument
    that is neither a list nor a string fails the assertion; and in a list
    the first key the index map does not have is the [KeyError]. *)
Theorem get_from_obs_failures env obs :
  _get_from_obs env obs (KeyList [])
  = Raise (ValueError "need at least one array to concatenate")
  ∧ _get_from_obs env obs (KeyStr "")
    = Raise (ValueError "need at least one array to concatenate")
  ∧ _get_from_obs env obs KeyOther = Raise AssertionError
  ∧ ∀ (ks1 ks2 : list string) (k : string),
      Forall (λ k', ∃ r, get_from_obs (obs_helper env)
                           ([of_Z 0; of_Z 0] ++ obs) k' = Ok r) ks1 →
      obs_idx_map (obs_helper env) !! k = None →
      _get_from_obs env obs (KeyList (ks1 ++ k :: ks2)) = Raise (KeyError k).
Proof.
  repeat split.
  intros ks1 ks2 k Hks1 Hk. unfold _get_from_obs. simpl.
  rewrite (mapM_first_error _ ks1 ks2 k (KeyError k)); [done | exact Hks1 |].
  unfold get_from_obs. by rewrite Hk.
Qed.

(** Reading two lists of keys one after the other is reading their
    concatenation. *)
Theorem get_from_obs_app env obs (ks1 ks2 : list string) (r1 r2 : list F) :
  _get_from_obs env obs (KeyList ks1) = Ok r1 →
  _get_from_obs env obs (KeyList ks2) = Ok r2 →
  _get_from_obs env obs (KeyList (ks1 ++ ks2)) = Ok (r1 ++ r2).
Proof.
  unfold _get_from_obs. simpl. intros H1 H2.
  destruct (mapM _ ks1) as [e | e1] eqn:Hm1; [done |].
  destruct (mapM _ ks2) as [e | e2] eqn:Hm2; [done |].
  rewrite (mapM_app_ok _ ks1 ks2 e1 e2 Hm1 Hm2). simpl in *.
  destruct e1 as [| x1 e1]; [done |]. destruct e2 as [| x2 e2]; [done |].
  injection H1 as <-. injection H2 as <-.
  simpl. by rewrite concat_app, <- app_assoc.
Qed.

(** The indices of [get_obs_idx] address the agent's observation: for a
    key that is not x or y, reading the observation at them is reading the
    raw sample at the indices of the index map. *)
Theorem get_obs_idx_addresses_observation env raw (key : string) (idx : list Z) :
  obs_idx_map (obs_helper env) !! key = Some idx →
  Forall (λ i, 2 ≤ i < Z.of_nat (length raw)) idx →
  ∃ shifted, get_obs_idx (obs_helper env) key = Ok shifted
    ∧ length shifted = length idx
    ∧ mapM (index (_create_observation env raw)) shifted = mapM (index raw) idx.
Proof.
  intros Hkey Hidx. unfold get_obs_idx. rewrite Hkey.
  eexists. split; [reflexivity |]. split; [by rewrite length_fmap |].
  clear Hkey. induction Hidx as [| i idx [Hlo Hhi] _ IH]; [done |].
  rewrite fmap_cons, !mapM_cons_exn, IH.
  destruct (lookup_lt_is_Some_2 raw (Z.to_nat i)) as [x Hx]; [lia |].
  rewrite (index_in_range raw i x) by (done || lia).
  rewrite (index_in_range (_create_observation env raw) (i - 2) x); [done | lia |].
  pose proof (padded_observation_lookup env raw (Z.to_nat i)) as Hpad.
  rewrite bool_decide_eq_false_2 in Hpad by lia.
  rewrite <- Hx, <- Hpad by lia.
  replace (Z.to_nat i) with (2 + Z.to_nat (i - 2))%nat by lia. reflexivity.
Qed.

(** For x and y, which sit at 0 and 1 in the raw sample, the shifted
    index is negative, and numpy counts it from the end: [get_obs_idx]
    then addresses one of the last two entries of the observation. *)
Theorem get_obs_idx_of_xy_counts_from_end env obs (key : string) (i : Z) (x : F) :
  obs_idx_map (obs_helper env) !! key = Some [i] →
  0 ≤ i < 2 →
  obs !! (length obs - 2 + Z.to_nat i)%nat = Some x →
  (2 ≤ length obs)%nat →
  get_obs_idx (obs_helper env) key = Ok [i - 2]
  ∧ index obs (i - 2) = Ok x.
Proof.
  intros Hkey Hi Hx Hlen. unfold get_obs_idx. rewrite Hkey. split; [done |].
  apply index_from_end; [lia | lia |].
  replace (Z.to_nat (Z.of_nat (length obs) + (i - 2)))
    with (length obs - 2 + Z.to_nat i)%nat by lia.
  exact Hx.
Qed.

End Reading.

(** ** Writing to the simulator and reading back *)

Section Restoring.
Context {F R T W V : Type}.
Context `{!Num F, !RewardInterface R (gmap string V),
          !TrajectoryInterface T F (gmap string V),
          !WindowInterface W F, !ContactInterface F}.
Implicit Types env : BaseEnv F R T W.
Implicit Types sample : list (ndarray F).
Implicit Types pairs : list (spec_entry * ndarray F).

Lemma set_sim_state_run sample env :
  set_sim_state sample env
  = if bool_decide (length sample = length (observation_spec (obs_helper env)))
    then for_in (paired env sample) set_sim_state_entry env
    else (env, Raise AssertionError).
Proof. unfold set_sim_state. run. by case_bool_decide. Qed.

(** A field holds either what the last matching pair wrote, whatever it
    held, or what it held. *)
Lemma written_cases ot name pairs :
  (∃ v, ∀ old, written ot name pairs old = Some v)
  ∨ (∀ old, written ot name pairs old = old).
Proof.
  induction pairs as [| p pairs [[v IH] | IH]].
  - by right.
  - left. exists v. intros old. by rewrite written_cons.
  - destruct (decide (p.1.2 = ot ∧ p.1.1.2 = name)) as [Hp | Hp].
    + left. exists p.2. intros old. by rewrite written_cons, IH, decide_True.
    + right. intros old. by rewrite written_cons, IH, decide_False.
Qed.

Lemma written_idempotent ot name pairs old :
  written ot name pairs (written ot name pairs old) = written ot name pairs old.
Proof. destruct (written_cases ot name pairs) as [[v Hv] | Hid]; by rewrite ?Hv, ?Hid. Qed.

Lemma written_untouched ot name pairs old :
  Forall (λ p, ¬ (p.1.2 = ot ∧ p.1.1.2 = name)) pairs →
  written ot name pairs old = old.
Proof.
  intros Hnone. revert old. induction Hnone as [| p pairs Hp _ IH]; intros old.
  - done.
  - by rewrite written_cons, decide_False, IH.
Qed.

Lemma written_last ot name pairs (i : nat) key (v : ndarray F) old :
  pairs !! i = Some ((key, name, ot), v) →
  Forall (λ p, ¬ (p.1.2 = ot ∧ p.1.1.2 = name)) (drop (S i) pairs) →
  written ot name pairs old = Some v.
Proof.
  revert i old. induction pairs as [| p pairs IH]; intros i old Hi Hlater; [done |].
  rewrite written_cons. destruct i as [| i]; simpl in *.
  - injection Hi as ->. simpl. rewrite decide_True by done.
    by apply written_untouched.
  - by eapply IH.
Qed.

Lemma MjData_eq (d1 d2 : MjData F) :
  (∀ name, qpos d1 !! name = qpos d2 !! name) →
  (∀ name, qvel d1 !! name = qvel d2 !! name) →
  (∀ name, xmat d1 !! name = xmat d2 !! name) →
  d1 = d2.
Proof.
  destruct d1, d2. simpl. intros Hq Hv Hx.
  f_equal; by apply map_eq.
Qed.

(** A call that ends normally wrote each field as [written] says. *)
Lemma set_sim_state_ok_inv sample env :
  snd (set_sim_state sample env) = Ok tt →
  ∃ d1, set_sim_state sample env = (set_data d1 env, Ok tt)
    ∧ length sample = length (observation_spec (obs_helper env))
    ∧ forallb rank_ok (paired env sample) = true
    ∧ ∀ name,
        qpos d1 !! name
        = written JOINT_POS name (paired env sample) (qpos (_data env) !! name)
        ∧ qvel d1 !! name
          = written JOINT_VEL name (paired env sample) (qvel (_data env) !! name)
        ∧ xmat d1 !! name
          = written SITE_ROT name (paired env sample) (xmat (_data env) !! name).
Proof.
  intros Hok. rewrite set_sim_state_run in Hok |- *.
  case_bool_decide as Hlen; [| done].
  destruct (forallb rank_ok (paired env sample)) eqn:Hrank;
    [| by rewrite (for_in_entries_bad_rank _ env Hrank) in Hok].
  destruct (for_in_entries_ok (paired env sample) env Hrank) as (d1 & Hrun & Hd1).
  eauto.
Qed.

Lemma Forall_zip_spec (P : spec_entry → Prop) (Q : spec_entry * ndarray F → Prop)
    (spec : list spec_entry) (values : list (ndarray F)) :
  (∀ e v, P e → Q (e, v)) → Forall P spec → Forall Q (zip spec values).
Proof.
  intros HPQ HP. revert values.
  induction HP as [| e spec He _ IH]; intros [| v values]; simpl; auto.
Qed.

Lemma paired_written_last env sample (i : nat) key name ot value old :
  observation_spec (obs_helper env) !! i = Some (key, name, ot) →
  sample !! i = Some value →
  Forall (λ e : spec_entry, ¬ (e.2 = ot ∧ e.1.2 = name))
    (drop (S i) (observation_spec (obs_helper env))) →
  written ot name (paired env sample) old = Some value.
Proof.
  intros Hspec Hvalue Hlater.
  apply (written_last ot name (paired env sample) i key value).
  - unfold paired. rewrite lookup_zip_with, Hspec. simpl. by rewrite Hvalue.
  - unfold paired. rewrite zip_with_drop.
    revert Hlater. apply Forall_zip_spec. by intros e v.
Qed.

Lemma paired_written_untouched env sample name ot old :
  Forall (λ e : spec_entry, ¬ (e.2 = ot ∧ e.1.2 = name))
    (observation_spec (obs_helper env)) →
  written ot name (paired env sample) old = old.
Proof.
  intros Hnone. apply written_untouched. unfold paired.
  revert Hnone. apply Forall_zip_spec. by intros e v.
Qed.

(** Setting the simulator to the same sample twice is setting it once. *)
Theorem set_sim_state_idempotent sample env :
  snd (set_sim_state sample env) = Ok tt →
  set_sim_state sample (fst (set_sim_state sample env)) = set_sim_state sample env.
Proof.
  intros Hok.
  destruct (set_sim_state_ok_inv sample env Hok) as (d1 & Hrun & Hlen & Hrank & Hd1).
  rewrite Hrun. simpl. rewrite set_sim_state_run. simpl.
  rewrite bool_decide_eq_true_2 by done.
  change (paired (set_data d1 env) sample) with (paired env sample).
  destruct (for_in_entries_ok (paired env sample) (set_data d1 env) Hrank)
    as (d2 & Hrun2 & Hd2).
  rewrite Hrun2. simpl in Hd2.
  change (set_data d2 (set_data d1 env)) with (set_data d2 env).
  do 2 f_equal. apply MjData_eq; intros name;
    destruct (Hd1 name) as (Hq1 & Hv1 & Hx1);
    destruct (Hd2 name) as (Hq2 & Hv2 & Hx2).
  - by rewrite Hq2, Hq1, written_idempotent.
  - by rewrite Hv2, Hv1, written_idempotent.
  - by rewrite Hx2, Hx1, written_idempotent.
Qed.

(** After [set_sim_state] a joint position, joint velocity or site
    rotation reads back as the value of the sample at the position of its
    entry, provided no later entry of that kind has the same name; and a
    name no entry of that kind carries reads back as before. *)
Theorem set_sim_state_reads_back sample env :
  snd (set_sim_state sample env) = Ok tt →
  (∀ (i : nat) key name ot value,
     observation_spec (obs_helper env) !! i = Some (key, name, ot) →
     sample !! i = Some value →
     Forall (λ e : spec_entry, ¬ (e.2 = ot ∧ e.1.2 = name))
       (drop (S i) (observation_spec (obs_helper env))) →
     (ot = JOINT_POS →
        qpos (_data (fst (set_sim_state sample env))) !! name = Some value)
     ∧ (ot = JOINT_VEL →
        qvel (_data (fst (set_sim_state sample env))) !! name = Some value)
     ∧ (ot = SITE_ROT →
        xmat (_data (fst (set_sim_state sample env))) !! name = Some value))
  ∧ (∀ name,
       (Forall (λ e : spec_entry, ¬ (e.2 = JOINT_POS ∧ e.1.2 = name))
          (observation_spec (obs_helper env)) →
        qpos (_data (fst (set_sim_state sample env))) !! name
        = qpos (_data env) !! name)
       ∧ (Forall (λ e : spec_entry, ¬ (e.2 = JOINT_VEL ∧ e.1.2 = name))
            (observation_spec (obs_helper env)) →
          qvel (_data (fst (set_sim_state sample env))) !! name
          = qvel (_data env) !! name)
       ∧ (Forall (λ e : spec_entry, ¬ (e.2 = SITE_ROT ∧ e.1.2 = name))
            (observation_spec (obs_helper env)) →
          xmat (_data (fst (set_sim_state sample env))) !! name
          = xmat (_data env) !! name)).
Proof.
  intros Hok.
  destruct (set_sim_state_ok_inv sample env Hok) as (d1 & Hrun & _ & _ & Hd1).
  rewrite Hrun. simpl. split.
  - intros i key name ot value Hspec Hvalue Hlater.
    destruct (Hd1 name) as (Hq & Hv & Hx).
    repeat split; intros ->.
    + rewrite Hq. by eapply paired_written_last.
    + rewrite Hv. by eapply paired_written_last.
    + rewrite Hx. by eapply paired_written_last.
  - intros name. destruct (Hd1 name) as (Hq & Hv & Hx).
    repeat split; intros Hnone.
    + rewrite Hq. by apply paired_written_untouched.
    + rewrite Hv. by apply paired_written_untouched.
    + rewrite Hx. by apply paired_written_untouched.
Qed.

(** *** From an observation *)

Lemma array1_rank (xs : list F) : length (shape (array1 xs)) = 1%nat.
Proof. by destruct xs. Qed.

Lemma init_sim_from_array1 env (xs : list F) :
  (length (observation_spec (obs_helper env)) ≤ 2 + length xs)%nat →
  _init_sim_from_obs (array1 xs) env
  = set_sim_state (take (length (observation_spec (obs_helper env)))
                     (Scalar <$> (of_Z 0 :: of_Z 0 :: xs))) env
  ∧ length (take (length (observation_spec (obs_helper env)))
              (Scalar <$> (of_Z 0 :: of_Z 0 :: xs)))
    = length (observation_spec (obs_helper env)).
Proof.
  intros Hlen. rewrite init_sim_from_obs_run.
  rewrite bool_decide_eq_true_2 by apply array1_rank.
  simpl. rewrite !length_fmap.
  rewrite bool_decide_eq_true_2 by lia. split; [done |].
  rewrite length_take. simpl. rewrite length_fmap. lia.
Qed.

(** Initialising from an observation puts the model at x = y = 0 and
    every other joint where the observation says: with no site rotation
    in the specification and an observation that is long enough the call
    ends normally, and the joint position or velocity of entry [i] reads
    back as zero for [i < 2] and as [obs[i - 2]] otherwise (for a name
    that no later entry of the kind repeats). *)
Theorem init_sim_from_obs_reads_back env (xs : list F) :
  (length (observation_spec (obs_helper env)) ≤ 2 + length xs)%nat →
  Forall (λ e : spec_entry, e.2 ≠ SITE_ROT) (observation_spec (obs_helper env)) →
  snd (_init_sim_from_obs (array1 xs) env) = Ok tt
  ∧ ∀ (i : nat) key name ot,
      observation_spec (obs_helper env) !! i = Some (key, name, ot) →
      Forall (λ e : spec_entry, ¬ (e.2 = ot ∧ e.1.2 = name))
        (drop (S i) (observation_spec (obs_helper env))) →
      (ot = JOINT_POS →
         qpos (_data (fst (_init_sim_from_obs (array1 xs) env))) !! name
         = Some (Scalar (if bool_decide (i < 2)%nat then of_Z 0
                         else default (of_Z 0) (xs !! (i - 2)%nat))))
      ∧ (ot = JOINT_VEL →
         qvel (_data (fst (_init_sim_from_obs (array1 xs) env))) !! name
         = Some (Scalar (if bool_decide (i < 2)%nat then of_Z 0
                         else default (of_Z 0) (xs !! (i - 2)%nat)))).
Proof.
  intros Hlen Hnorot.
  destruct (init_sim_from_array1 env xs Hlen) as [-> Hsample].
  set (sample := take (length (observation_spec (obs_helper env)))
                   (Scalar <$> (of_Z 0 :: of_Z 0 :: xs))) in *.
  assert (Hrank : forallb rank_ok (paired env sample) = true).
  { apply forallb_forall. intros [[[key name] ot] v] Hin.
    apply bool_decide_eq_true_2. simpl. intros ->.
    apply list_elem_of_In, elem_of_zip_l in Hin.
    rewrite Forall_forall in Hnorot. by apply Hnorot in Hin. }
  assert (Hrun : ∃ d1, set_sim_state sample env = (set_data d1 env, Ok tt)
            ∧ ∀ name,
                qpos d1 !! name
                = written JOINT_POS name (paired env sample) (qpos (_data env) !! name)
                ∧ qvel d1 !! name
                  = written JOINT_VEL name (paired env sample)
                      (qvel (_data env) !! name)
                ∧ xmat d1 !! name
                  = written SITE_ROT name (paired env sample)
                      (xmat (_data env) !! name)).
  { rewrite set_sim_state_run, bool_decide_eq_true_2 by done.
    destruct (for_in_entries_ok (paired env sample) env Hrank) as (d1 & Hd1 & Hw).
    eauto. }
  destruct Hrun as (d1 & -> & Hd1). split; [done |].
  intros i key name ot Hspec Hlater. simpl.
  assert (Hvalue : sample !! i
                   = Some (Scalar (if bool_decide (i < 2)%nat then of_Z 0
                                   else default (of_Z 0) (xs !! (i - 2)%nat)))).
  { pose proof (lookup_lt_Some _ _ _ Hspec) as Hi.
    unfold sample. rewrite lookup_take_lt by done.
    rewrite list_lookup_fmap.
    destruct i as [| [| i]]; [done | done |]. simpl.
    rewrite Nat.sub_0_r.
    destruct (lookup_lt_is_Some_2 xs i) as [x ->]; [lia | done]. }
  destruct (Hd1 name) as (Hq & Hv & _).
  split; intros ->.
  - rewrite Hq. by eapply paired_written_last.
  - rewrite Hv. by eapply paired_written_last.
Qed.

(** An environment whose specification holds a site rotation cannot be
    initialised from an observation: the values of a flat observation are
    numbers, and the rotation asks for a matrix. *)
Theorem init_sim_from_obs_rejects_rotation env (xs : list F) (i : nat) key name :
  (length (observation_spec (obs_helper env)) ≤ 2 + length xs)%nat →
  observation_spec (obs_helper env) !! i = Some (key, name, SITE_ROT) →
  snd (_init_sim_from_obs (array1 xs) env) = Raise AssertionError.
Proof.
  intros Hlen Hrot.
  destruct (init_sim_from_array1 env xs Hlen) as [-> Hsample].
  set (sample := take (length (observation_spec (obs_helper env)))
                   (Scalar <$> (of_Z 0 :: of_Z 0 :: xs))) in *.
  rewrite set_sim_state_run, bool_decide_eq_true_2 by done.
  apply for_in_entries_bad_rank.
  apply not_true_is_false. intros Hall.
  rewrite forallb_forall in Hall.
  destruct (lookup_lt_is_Some_2 sample i) as [v Hv].
  { rewrite Hsample. by eapply lookup_lt_Some. }
  assert (Hscalar : ∃ x, v = Scalar x).
  { unfold sample in Hv. apply lookup_take_Some in Hv as [Hv _].
    rewrite list_lookup_fmap in Hv.
    destruct ((of_Z 0 :: of_Z 0 :: xs) !! i); [| done].
    injection Hv as <-. eauto. }
  destruct Hscalar as [x ->].
  assert (Hin : In ((key, name, SITE_ROT), Scalar x) (paired env sample)).
  { apply list_elem_of_In, list_elem_of_lookup. exists i.
    unfold paired. rewrite lookup_zip_with, Hrot. simpl. by rewrite Hv. }
  specialize (Hall _ Hin). unfold rank_ok in Hall.
  apply bool_decide_eq_true in Hall. simpl in Hall.
  specialize (Hall eq_refl). discriminate.
Qed.

End Restoring.

(** ** Episodes *)

Section Episodes.
Context {F R T W V : Type}.
Context `{!Num F, !RewardInterface R (gmap string V),
          !TrajectoryInterface T F (gmap string V),
          !WindowInterface W F, !ContactInterface F}.
Implicit Types env : BaseEnv F R T W.
Implicit Types sample : list (ndarray F).

Lemma restore_from_trajectory_ok (t t' : T) a b sample env :
  reset_trajectory t a b = Ok (t', sample) →
  restore_from_trajectory t a b env
  = set_sim_state sample (set_trajectories (Some t') (emit (Reset_trajectory a b) env))
  ∧ trajectories (fst (restore_from_trajectory t a b env)) = Some t'
  ∧ log (fst (restore_from_trajectory t a b env)) = log env ++ [Reset_trajectory a b].
Proof.
  intros Hreset.
  pose proof (restore_from_trajectory_outcome t a b env) as Hout.
  rewrite Hreset in Hout. rewrite Hout. split; [done |].
  destruct (set_sim_state_outcome sample
              (set_trajectories (Some t') (emit (Reset_trajectory a b) env)))
    as (d & r & -> & _).
  done.
Qed.

Lemma restore_from_trajectory_error (t : T) a b e env :
  reset_trajectory t a b = Raise e →
  restore_from_trajectory t a b env = (emit (Reset_trajectory a b) env, Raise e).
Proof.
  intros Hreset.
  pose proof (restore_from_trajectory_outcome t a b env) as Hout.
  by rewrite Hreset in Hout.
Qed.

(** A positive fixed initial step (below [2^53], where the division of
    the step by the length is exact), for trajectories of positive length.
    Past [traj_len * n_traj] the assertion fails and nothing but the
    reward reset has happened.  Up to it (the bound included) the store is
    asked once, for sample [k mod traj_len] of trajectory [k // traj_len]:
    its failure is the failure of [setup], and its sample is what the
    simulator is set to, the environment holding the store as the reset
    left it. *)
Theorem setup_fixed_step_restores env (t : T) (k : Z) :
  trajectories env = Some t → _random_start env = false →
  _init_step_no env = Some k → 0 < k < 2 ^ 53 → 0 < trajectory_length t →
  (trajectory_length t * nnumber_of_trajectories t < k →
     setup None env = (reward_reset env, Raise AssertionError))
  ∧ (k ≤ trajectory_length t * nnumber_of_trajectories t →
     ∀ e, reset_trajectory t (Some (k `mod` trajectory_length t))
            (Some (k `div` trajectory_length t)) = Raise e →
          setup None env
          = (emit (Reset_trajectory (Some (k `mod` trajectory_length t))
                     (Some (k `div` trajectory_length t))) (reward_reset env),
             Raise e))
  ∧ (k ≤ trajectory_length t * nnumber_of_trajectories t →
     ∀ t' sample,
       reset_trajectory t (Some (k `mod` trajectory_length t))
         (Some (k `div` trajectory_length t)) = Ok (t', sample) →
       setup None env
       = set_sim_state sample
           (set_trajectories (Some t')
              (emit (Reset_trajectory (Some (k `mod` trajectory_length t))
                       (Some (k `div` trajectory_length t))) (reward_reset env)))
       ∧ trajectories (fst (setup None env)) = Some t'
       ∧ log (fst (setup None env))
         = log env ++ [Reset_state;
                       Reset_trajectory (Some (k `mod` trajectory_length t))
                         (Some (k `div` trajectory_length t))]).
Proof.
  intros Ht Hr Hk [Hpos _] Hlen.
  assert (Hk0 : k ≠ 0) by lia.
  destruct (setup_fixed_init_step env t k Ht Hr Hk Hk0) as (Hover & _ & Hin).
  split; [exact Hover |].
  assert (Hquot : k `quot` trajectory_length t = k `div` trajectory_length t)
    by (apply Z.quot_div_nonneg; lia).
  split.
  - intros Hbound e Hreset. rewrite Hin, Hquot by lia.
    by apply restore_from_trajectory_error.
  - intros Hbound t' sample Hreset. rewrite Hin, Hquot by lia.
    destruct (restore_from_trajectory_ok t t' _ _ sample (reward_reset env) Hreset)
      as (Hrun & Htraj & Hlog).
    split; [done |]. split; [done |].
    rewrite Hlog. unfold_env. by rewrite <- app_assoc.
Qed.

(** A random start: the store is asked once for a sample of its own
    choice (no trajectory, no step given); its failure is the failure of
    [setup], and its sample is what the simulator is set to. *)
Theorem setup_random_start_restores env (t : T) :
  trajectories env = Some t → _random_start env = true →
  _init_step_no env = None →
  (∀ e, reset_trajectory t None None = Raise e →
        setup None env
        = (emit (Reset_trajectory None None) (reward_reset env), Raise e))
  ∧ (∀ t' sample,
       reset_trajectory t None None = Ok (t', sample) →
       setup None env
       = set_sim_state sample
           (set_trajectories (Some t')
              (emit (Reset_trajectory None None) (reward_reset env)))
       ∧ trajectories (fst (setup None env)) = Some t'
       ∧ log (fst (setup None env))
         = log env ++ [Reset_state; Reset_trajectory None None]).
Proof.
  intros Ht Hr Hk. rewrite (setup_random_start env t Ht Hr Hk). split.
  - intros e Hreset. by apply restore_from_trajectory_error.
  - intros t' sample Hreset.
    destruct (restore_from_trajectory_ok t t' _ _ sample (reward_reset env) Hreset)
      as (Hrun & Htraj & Hlog).
    split; [done |]. split; [done |].
    rewrite Hlog. unfold_env. by rewrite <- app_assoc.
Qed.

(** With an observation, [setup] does not look at the trajectories or at
    the flags: it never raises a [ValueError], never asks the store, and
    two environments with the same specification and simulator data end
    the same way and, when the call ends normally, with the same simulator
    data. *)
Theorem setup_with_observation_ignores_reset_mode (obs : ndarray F) env env' :
  obs_helper env' = obs_helper env → _data env' = _data env →
  (snd (setup (Some obs) env) = Ok tt
   ∨ snd (setup (Some obs) env) = Raise AssertionError)
  ∧ trajectories (fst (setup (Some obs) env)) = trajectories env
  ∧ log (fst (setup (Some obs) env)) = log env ++ [Reset_state]
  ∧ snd (setup (Some obs) env') = snd (setup (Some obs) env)
  ∧ (snd (setup (Some obs) env) = Ok tt →
     _data (fst (setup (Some obs) env')) = _data (fst (setup (Some obs) env))).
Proof.
  intros Hoh Hdata. rewrite !setup_with_obs.
  destruct (init_sim_from_obs_outcome obs (reward_reset env)) as (d & r & Hrun & Hr).
  split; [rewrite Hrun; simpl; tauto |].
  split; [by rewrite Hrun |]. split; [by rewrite Hrun |].
  clear d r Hrun Hr.
  rewrite !init_sim_from_obs_run. simpl. rewrite Hoh.
  case_bool_decide; [| done]. case_bool_decide; [| done].
  set (sample := take _ _).
  rewrite !set_sim_state_run. simpl. rewrite Hoh.
  case_bool_decide; [| done].
  change (paired (reward_reset env') sample) with
    (zip (observation_spec (obs_helper env')) sample).
  change (paired (reward_reset env) sample) with
    (zip (observation_spec (obs_helper env)) sample).
  rewrite Hoh.
  destruct (forallb rank_ok (zip (observation_spec (obs_helper env)) sample))
    eqn:Hrank.
  - destruct (for_in_entries_ok _ (reward_reset env) Hrank) as (d1 & -> & Hd1).
    destruct (for_in_entries_ok _ (reward_reset env') Hrank) as (d2 & -> & Hd2).
    split; [done |]. intros _. simpl in *.
    apply MjData_eq; intros name;
      destruct (Hd1 name) as (Hq1 & Hv1 & Hx1);
      destruct (Hd2 name) as (Hq2 & Hv2 & Hx2).
    + by rewrite Hq2, Hq1, Hdata.
    + by rewrite Hv2, Hv1, Hdata.
    + by rewrite Hx2, Hx1, Hdata.
  - rewrite (for_in_entries_bad_rank _ (reward_reset env) Hrank).
    rewrite (for_in_entries_bad_rank _ (reward_reset env') Hrank).
    split; [done |]. discriminate.
Qed.

End Episodes.

(** ** What the constructor fixes *)

Section Constructed.
Context {F R T W V : Type}.
Context `{!Num F, !Inf F, !RewardInterface R (gmap string V),
          !TrajectoryInterface T F (gmap string V),
          !WindowInterface W F, !ContactInterface F}.
Implicit Types env : BaseEnv F R T W.
Implicit Types super : MultiMuJoCo F.

(** The environment as it is before trajectories are loaded. *)
Lemma init_result super reward_type reward_params (traj_params : option (gmap string V))
    random_start init_step_no use_foot_forces env :
  __init__ super reward_type reward_params traj_params random_start
    init_step_no use_foot_forces = Ok env →
  ∃ reward_function mean delta,
    _get_reward_function (super_obs_helper super) reward_type reward_params
    = Ok reward_function
    ∧ action_mean (low (action_space (super_info super)))
        (high (action_space (super_info super))) = Ok mean
    ∧ action_delta (low (action_space (super_info super)))
        (high (action_space (super_info super))) = Ok delta
    ∧ ∃ trajectories,
        env = mkBaseEnv (super_obs_helper super)
                (mkMDPInfo
                   (mkBox (_get_observation_space (super_info super) use_foot_forces).1
                          (_get_observation_space (super_info super) use_foot_forces).2)
                   (mkBox (replicate (length (low (action_space (super_info super))))
                             (of_Z (-1)))
                          (replicate (length (high (action_space (super_info super))))
                             (of_Z 1))))
                (super_data super) (super_n_substeps super) reward_function
                use_foot_forces mean delta
                (seqZ 0 (Z.of_nat (length (observation_spec (super_obs_helper super)))
                         - 2))
                (_setup_ground_force_statistics (super_n_substeps super))
                trajectories random_start init_step_no []
        ∧ (trajectories = None
           ∨ ∃ p t, traj_params = Some p ∧ size p ≠ 0%nat ∧ trajectories = Some t
               ∧ Trajectory
                   (mkTrajectoryArgs
                      (remove_dups ((λ e : spec_entry, e.1.1)
                                    <$> observation_spec (super_obs_helper super)))
                      (_get_observation_space (super_info super) use_foot_forces).1
                      (_get_observation_space (super_info super) use_foot_forces).2
                      (joint_pos_idx (super_obs_helper super)) p) = Ok t)
        ∧ (trajectories = None →
           traj_params = None ∨ traj_params = Some ∅).
Proof.
  unfold __init__. intros Hinit.
  destruct (_get_reward_function _ _ _) as [e | r]; [done |]. simpl in Hinit.
  destruct (_get_observation_space _ _) as [obs_low obs_high] eqn:Hspace.
  destruct (action_mean _ _) as [e | m]; [done |]. simpl in Hinit.
  destruct (action_delta _ _) as [e | dl]; [done |]. simpl in Hinit.
  exists r, m, dl. do 3 (split; [done |]).
  destruct traj_params as [p |]; [case_bool_decide as Hp |].
  - rewrite load_trajectory_run in Hinit. simpl in Hinit.
    unfold trajectory_args, get_all_observation_keys in Hinit. simpl in Hinit.
    destruct (Trajectory _) as [e | t] eqn:Ht; [done |].
    injection Hinit as <-. exists (Some t).
    split; [done |]. split; [| done]. right. exists p, t. by repeat split.
  - injection Hinit as <-. exists None.
    split; [done |]. split; [by left |]. intros _. right. f_equal.
    apply map_size_empty_iff. destruct (decide (size p = 0%nat)); [done |].
    by destruct Hp.
  - injection Hinit as <-. exists None.
    split; [done |]. split; [by left |]. by left.
Qed.

(** The constructor never warns, and it loads trajectories exactly when
    it is given parameters for them (a dictionary that is not empty); the
    store is then the one made from the keys of the whole specification,
    x and y included, and the bounds of the agent's observation space,
    which is the space the environment has from then on. *)
Theorem init_trajectories super reward_type reward_params
    (traj_params : option (gmap string V)) random_start init_step_no
    use_foot_forces env :
  __init__ super reward_type reward_params traj_params random_start
    init_step_no use_foot_forces = Ok env →
  log env = []
  ∧ (trajectories env = None ↔ traj_params = None ∨ traj_params = Some ∅)
  ∧ (∀ t, trajectories env = Some t →
       ∃ p, traj_params = Some p
         ∧ Trajectory (trajectory_args env p) = Ok t
         ∧ arg_keys (trajectory_args env p)
           = remove_dups ((λ e : spec_entry, e.1.1)
                          <$> observation_spec (super_obs_helper super))
         ∧ arg_low (trajectory_args env p)
           = (_get_observation_space (super_info super) use_foot_forces).1
         ∧ arg_high (trajectory_args env p)
           = (_get_observation_space (super_info super) use_foot_forces).2).
Proof.
  intros Hinit.
  destruct (init_result _ _ _ _ _ _ _ _ Hinit)
    as (r & m & dl & _ & _ & _ & traj & -> & Hloaded & Hnone).
  simpl. split; [done |]. split; [split |].
  - exact Hnone.
  - intros Hparams. destruct Hloaded as [-> | (p & t & -> & Hp & -> & _)]; [done |].
    destruct Hparams as [? | Hempty]; [done |].
    injection Hempty as ->. by rewrite map_size_empty in Hp.
  - intros t ->. destruct Hloaded as [? | (p & t' & -> & _ & Ht' & Hstore)]; [done |].
    injection Ht' as ->. exists p. by repeat split.
Qed.

(** With native actuator bounds of one length, the constructor fails
    exactly when the reward dispatch fails, or when trajectories are asked
    for and the constructor of the store fails; the exception is theirs. *)
Theorem init_failure super reward_type reward_params
    (traj_params : option (gmap string V)) random_start init_step_no
    use_foot_forces e :
  length (low (action_space (super_info super)))
  = length (high (action_space (super_info super))) →
  __init__ (R:=R) (T:=T) (W:=W) super reward_type reward_params traj_params
    random_start init_step_no use_foot_forces = Raise e
  ↔ _get_reward_function (R:=R) (super_obs_helper super) reward_type reward_params
    = Raise e
    ∨ ∃ (r : R) p,
        _get_reward_function (super_obs_helper super) reward_type reward_params = Ok r
        ∧ traj_params = Some p ∧ size p ≠ 0%nat
        ∧ Trajectory (T:=T)
            (mkTrajectoryArgs
               (remove_dups ((λ e : spec_entry, e.1.1)
                             <$> observation_spec (super_obs_helper super)))
               (_get_observation_space (super_info super) use_foot_forces).1
               (_get_observation_space (super_info super) use_foot_forces).2
               (joint_pos_idx (super_obs_helper super)) p) = Raise e.
Proof.
  intros Hlen. unfold __init__.
  destruct (_get_reward_function _ _ _) as [e' | r]; simpl.
  { split; [intros [= ->]; by left | intros [[= ->] | (r & p & ? & _)]; done]. }
  destruct (_get_observation_space _ _) as [obs_low obs_high] eqn:Hspace.
  unfold action_mean, action_delta.
  rewrite !broadcast_same_length by done. simpl.
  destruct traj_params as [p |]; [case_bool_decide as Hp |].
  - rewrite load_trajectory_run. simpl.
    unfold trajectory_args, get_all_observation_keys. simpl.
    destruct (Trajectory _) as [e' | t] eqn:Ht.
    + split.
      * intros [= ->]. right. exists r, p. by repeat split.
      * intros [? | (r' & p' & _ & [= <-] & _ & Hfail)]; [done |].
        rewrite Ht in Hfail. by injection Hfail as ->.
    + split; [done |].
      intros [? | (r' & p' & _ & [= <-] & _ & Hfail)]; [done |].
      by rewrite Ht in Hfail.
  - split; [done |].
    intros [? | (r' & p' & _ & [= <-] & Hsize & _)]; [done |].
    by destruct Hp.
  - split; [done |]. by intros [? | (r' & p' & _ & ? & _)].
Qed.

(** *** What stays as constructed *)

Lemma load_trajectory_configuration (p : gmap string V) env :
  configuration (fst (load_trajectory p env)) = configuration env.
Proof.
  rewrite load_trajectory_run. simpl.
  by destruct (Trajectory _), (trajectories env).
Qed.

Lemma setup_configuration (obs : option (ndarray F)) env :
  configuration (fst (setup obs env)) = configuration env.
Proof. by destruct (setup_frame obs env) as (d & t & rest & -> & _). Qed.

Lemma set_sim_state_configuration (sample : list (ndarray F)) env :
  configuration (fst (set_sim_state sample env)) = configuration env.
Proof. by destruct (set_sim_state_outcome sample env) as (d & r & -> & _). Qed.

Lemma init_sim_from_obs_configuration (obs : ndarray F) env :
  configuration (fst (_init_sim_from_obs obs env)) = configuration env.
Proof. by destruct (init_sim_from_obs_outcome obs env) as (d & r & -> & _). Qed.

Lemma simulation_post_step_configuration env :
  configuration (fst (_simulation_post_step env)) = configuration env.
Proof. unfold _simulation_post_step. run. by destruct (_use_foot_forces env). Qed.

(** Every state has the configuration of a constructed environment. *)
Lemma reachable_configuration env :
  reachable env →
  ∃ super reward_type reward_params (traj_params : option (gmap string V))
    random_start init_step_no use_foot_forces env0,
    __init__ super reward_type reward_params traj_params random_start
      init_step_no use_foot_forces = Ok env0
    ∧ configuration env = configuration env0.
Proof.
  induction 1 as [super rt rp tp rs isn uff env Hinit
                 | p env _ IH | obs env _ IH | sample env _ IH | obs env _ IH
                 | env _ IH].
  - by exists super, rt, rp, tp, rs, isn, uff, env.
  - by rewrite load_trajectory_configuration.
  - by rewrite setup_configuration.
  - by rewrite set_sim_state_configuration.
  - by rewrite init_sim_from_obs_configuration.
  - by rewrite simulation_post_step_configuration.
Qed.

(** No method but the constructor assigns the specification, the spaces,
    the number of substeps, the foot force flag, the normalisation of
    actions, the kinematic mask or the two flags of the reset mode. *)
Theorem methods_keep_configuration env :
  (∀ obs, configuration (fst (setup obs env)) = configuration env)
  ∧ (∀ p : gmap string V,
       configuration (fst (load_trajectory p env)) = configuration env)
  ∧ (∀ sample, configuration (fst (set_sim_state sample env)) = configuration env)
  ∧ (∀ obs, configuration (fst (_init_sim_from_obs obs env)) = configuration env)
  ∧ configuration (fst (_simulation_post_step env)) = configuration env.
Proof.
  split; [intros obs; apply setup_configuration |].
  split; [intros p; apply load_trajectory_configuration |].
  split; [intros sample; apply set_sim_state_configuration |].
  split; [intros obs; apply init_sim_from_obs_configuration |].
  apply simulation_post_step_configuration.
Qed.

(** In every state the kinematic mask is [0, 1, ..., len(observation_spec)
    - 3]: as many indices as the specification has entries beyond x and
    y, and none when it has no more than two. *)
Theorem reachable_kinematic_obs_mask env :
  reachable env →
  get_kinematic_obs_mask env
  = seqZ 0 (Z.of_nat (length (observation_spec (obs_helper env))) - 2)
  ∧ length (get_kinematic_obs_mask env)
    = (length (observation_spec (obs_helper env)) - 2)%nat
  ∧ ∀ i : nat, (i + 2 < length (observation_spec (obs_helper env)))%nat →
               get_kinematic_obs_mask env !! i = Some (Z.of_nat i).
Proof.
  intros Hreach.
  destruct (reachable_configuration env Hreach)
    as (super & rt & rp & tp & rs & isn & uff & env0 & Hinit & Hconf).
  destruct (init_result _ _ _ _ _ _ _ _ Hinit)
    as (r & m & dl & _ & _ & _ & traj & -> & _).
  unfold configuration in Hconf. simpl in Hconf.
  injection Hconf as Hoh _ _ _ _ _ Hmask _ _.
  unfold get_kinematic_obs_mask. rewrite Hmask, Hoh.
  split; [done |]. split.
  - rewrite length_seqZ. lia.
  - intros i Hi. rewrite lookup_seqZ. split; lia.
Qed.

Lemma broadcast_lengths (op1 op2 : F → F → F) (xs ys r1 r2 : list F) :
  broadcast op1 xs ys = Ok r1 → broadcast op2 xs ys = Ok r2 →
  length r1 = length r2.
Proof.
  unfold broadcast. case_decide.
  - intros [= <-] [= <-]. by rewrite !length_zip_with.
  - destruct xs as [| x [| x' xs]], ys as [| y [| y' ys]];
      intros H1 H2; simplify_eq/=; try done;
      by rewrite !length_fmap.
Qed.

(** In every state the action space the agent sees is [-1, 1] in every
    component, the mean and the half range have one length, and an action
    of that length is never rejected and comes back with that length,
    whatever its values. *)
Theorem reachable_action_normalisation env :
  reachable env →
  Forall (λ x, x = of_Z (-1)) (low (action_space (info env)))
  ∧ Forall (λ x, x = of_Z 1) (high (action_space (info env)))
  ∧ length (norm_act_mean env) = length (norm_act_delta env)
  ∧ ∀ action, length action = length (norm_act_mean env) →
      ∃ r, _preprocess_action env action = Ok r ∧ length r = length action.
Proof.
  intros Hreach.
  destruct (reachable_configuration env Hreach)
    as (super & rt & rp & tp & rs & isn & uff & env0 & Hinit & Hconf).
  destruct (init_result _ _ _ _ _ _ _ _ Hinit)
    as (r & m & dl & _ & Hmean & Hdelta & traj & -> & _).
  unfold configuration in Hconf. simpl in Hconf.
  injection Hconf as _ Hinfo _ _ Hm Hd _ _ _.
  rewrite Hinfo, Hm, Hd. simpl.
  assert (Hlen : length m = length dl).
  { unfold action_mean, action_delta in Hmean, Hdelta.
    destruct (broadcast fadd _ _) as [? | s] eqn:Hs; [done |].
    destruct (broadcast fsub _ _) as [? | d] eqn:Hdd; [done |].
    simpl in *. injection Hmean as <-. injection Hdelta as <-.
    unfold scalar_op. rewrite !length_fmap.
    by eapply broadcast_lengths. }
  split; [apply Forall_replicate; done |].
  split; [apply Forall_replicate; done |].
  split; [done |].
  intros action Hact. unfold _preprocess_action. rewrite Hm, Hd.
  rewrite broadcast_same_length by lia. simpl.
  rewrite broadcast_same_length by (rewrite length_zip_with; lia).
  eexists. split; [done |]. rewrite !length_zip_with. lia.
Qed.

(** The observation fits the observation space: for native observation
    bounds of one length and a raw sample of that length (two at least),
    the observation is as long as the lower and the upper bounds of the
    space the constructor sets. *)
Theorem observation_fits_observation_space super reward_type reward_params
    (traj_params : option (gmap string V)) random_start init_step_no
    use_foot_forces env (raw : list F) :
  __init__ super reward_type reward_params traj_params random_start
    init_step_no use_foot_forces = Ok env →
  length (low (observation_space (super_info super))) = length raw →
  length (high (observation_space (super_info super))) = length raw →
  length (_create_observation env raw)
  = length (low (observation_space (info env)))
  ∧ length (_create_observation env raw)
    = length (high (observation_space (info env)))
  ∧ length (_create_observation env raw)
    = (length raw - 2 + (if use_foot_forces then 12 else 0))%nat.
Proof.
  intros Hinit Hlow Hhigh.
  pose proof (init_grf_shape _ _ _ _ _ _ _ _ Hinit) as Hgrf.
  destruct (init_result _ _ _ _ _ _ _ _ Hinit)
    as (r & m & dl & _ & _ & _ & traj & -> & _).
  unfold _create_observation, _get_observation_space in *. simpl in *.
  destruct use_foot_forces; simpl; unfold scalar_op;
    rewrite ?length_app, ?length_fmap, ?length_drop, ?length_replicate, ?Hgrf,
      ?Hlow, ?Hhigh;
    unfold _get_grf_size; repeat split; simpl; lia.
Qed.

End Constructed.

(** ** Ground forces, datasets and key counts *)

Section Helpers.
Context {F R T W V : Type}.
Context `{!Num F, !RewardInterface R (gmap string V),
          !TrajectoryInterface T F (gmap string V),
          !WindowInterface W F, !ContactInterface F}.
Implicit Types env : BaseEnv F R T W.


(** [create_dataset] without trajectories is a [ValueError]; after
    trajectories have been loaded it is the dataset of the store that was
    loaded last. *)
Theorem create_dataset_after_load {D} `{!DatasetInterface T D} env
    (ignore_keys : option (list string)) :
  (trajectories env = None →
     create_dataset (D:=D) env ignore_keys
     = Raise (ValueError
                ("No trajectory was passed to the environment. "
                 +:+ "To create a dataset pass a trajectory first.")))
  ∧ (∀ (p : gmap string V) t,
       Trajectory (trajectory_args env p) = Ok t →
       create_dataset (D:=D) (fst (load_trajectory p env)) ignore_keys
       = trajectory_create_dataset t ignore_keys)
  ∧ (∀ obs, create_dataset (D:=D) (fst (setup (Some obs) env)) ignore_keys
            = create_dataset (D:=D) env ignore_keys).
Proof.
  split; [| split].
  - intros Hnone. unfold create_dataset. by rewrite Hnone.
  - intros p t Ht. unfold create_dataset.
    rewrite load_trajectory_run, Ht. done.
  - intros obs. unfold create_dataset. rewrite setup_with_obs.
    by destruct (init_sim_from_obs_outcome obs (reward_reset env))
      as (d & r & -> & _).
Qed.

(** Loading trajectories touches the store and the record of calls and
    nothing else; and when the constructor of the store fails, the store
    loaded before is still there, although the warning about its being
    overridden has been given. *)
Theorem load_trajectory_failure_keeps_store (p : gmap string V) env :
  _data (fst (load_trajectory p env)) = _data env
  ∧ _reward_function (fst (load_trajectory p env)) = _reward_function env
  ∧ mean_grf (fst (load_trajectory p env)) = mean_grf env
  ∧ ∀ e, snd (load_trajectory p env) = Raise e →
         trajectories (fst (load_trajectory p env)) = trajectories env
         ∧ (∀ old, trajectories env = Some old →
                   log (fst (load_trajectory p env)) = log env ++ [reload_warning]).
Proof.
  rewrite load_trajectory_run. simpl.
  destruct (Trajectory _) as [e' | t];
    destruct (trajectories env) as [old |] eqn:Hold;
    simpl; (do 3 (split; [done |])); intros e He; try done;
    (split; [done |]); intros old' Hold'; done.
Qed.

Lemma startswith_disjoint (key : string) :
  ¬ (startswith key "q_" ∧ startswith key "dq_").
Proof.
  unfold startswith. destruct key as [| c key]; cbn [String.prefix].
  { by intros [? _]. }
  intros [Hq Hd].
  repeat match goal with
         | H : context [Ascii.ascii_dec ?a ?b] |- _ =>
             destruct (Ascii.ascii_dec a b)
         end; try done.
  congruence.
Qed.

Lemma filter_disjoint_length {A} (P Q : A → Prop)
    `{!∀ x, Decision (P x), !∀ x, Decision (Q x)} (l : list A) :
  (∀ x, ¬ (P x ∧ Q x)) →
  (length (filter P l) + length (filter Q l) ≤ length l)%nat
  ∧ (Forall (λ x, P x ∨ Q x) l →
     (length (filter P l) + length (filter Q l))%nat = length l).
Proof.
  intros Hdisjoint. induction l as [| x l [IHle IHeq]]; [done |].
  rewrite !filter_cons. split.
  - destruct (decide (P x)), (decide (Q x)); simpl; try lia.
    by destruct (Hdisjoint x).
  - intros Hall. apply Forall_cons in Hall as [Hx Hl]. specialize (IHeq Hl).
    destruct (decide (P x)), (decide (Q x)); simpl; try lia.
    + by destruct (Hdisjoint x).
    + by destruct Hx.
Qed.

Lemma remove_dups_length_le {A} `{!EqDecision A} (l : list A) :
  (length (remove_dups l) ≤ length l)%nat.
Proof.
  induction l as [| x l IH]; [done |].
  simpl. destruct (decide_rel elem_of x l); simpl; lia.
Qed.

(** No key is counted twice by [_len_qpos_qvel]: the two counts add up
    to at most the number of keys, which is at most the number of entries
    of the specification, and to exactly the number of keys when each key
    starts with ["q_"] or ["dq_"]. *)
Theorem len_qpos_qvel_counts env :
  ((_len_qpos_qvel env).1 + (_len_qpos_qvel env).2
   ≤ length (get_all_observation_keys env))%nat
  ∧ (length (get_all_observation_keys env)
     ≤ length (observation_spec (obs_helper env)))%nat
  ∧ (Forall (λ key, startswith key "q_" ∨ startswith key "dq_")
       (get_all_observation_keys env) →
     ((_len_qpos_qvel env).1 + (_len_qpos_qvel env).2)%nat
     = length (get_all_observation_keys env)).
Proof.
  unfold _len_qpos_qvel. simpl.
  destruct (filter_disjoint_length (λ key, startswith key "q_")
              (λ key, startswith key "dq_") (get_all_observation_keys env)
              startswith_disjoint) as [Hle Heq].
  split; [exact Hle |]. split; [| exact Heq].
  unfold get_all_observation_keys.
  etransitivity; [apply remove_dups_length_le |]. by rewrite length_fmap.
Qed.

End Helpers.

(** ** Kinematics from observations *)

Section Kinematics.
Context {F R T W V : Type}.
Context `{!Num F, !RewardInterface R (gmap string V),
          !TrajectoryInterface T F (gmap string V),
          !WindowInterface W F, !ContactInterface F}.
Implicit Types env : BaseEnv F R T W.
Implicit Types rows : list (list F).
Implicit Types dataset : gmap string (list F).

Lemma column_ok (ncols : nat) rows (j : nat) :
  Forall (λ row, length row = ncols) rows → (j < ncols)%nat →
  ∃ col, column ncols rows j = Ok col ∧ length col = length rows
    ∧ ∀ (r : nat) row, rows !! r = Some row → col !! r = row !! j.
Proof.
  intros Hwf Hj. unfold column. rewrite bool_decide_eq_true_2 by done.
  induction Hwf as [| row rows Hrow _ (col & Hcol & Hlen & Hat)].
  - exists []. by repeat split.
  - destruct (lookup_lt_is_Some_2 row j) as [x Hx]; [lia |].
    exists (x :: col). simpl. rewrite Hx. simpl. rewrite Hcol. simpl.
    split; [done |]. split; [by rewrite Hlen |].
    intros [| r] row' Hr; simpl in *; [by injection Hr as <- | by apply Hat].
Qed.

(** The loop, when every column it asks for is there. *)
Lemma conversion_loop_ok (ncols : nat) rows (i : nat) (rel_keys : list string) dataset :
  Forall (λ row, length row = ncols) rows →
  (i + length rel_keys ≤ ncols + 2)%nat →
  ∃ result, conversion_loop ncols rows i rel_keys dataset = Ok result
    ∧ dom result = list_to_set rel_keys ∪ dom dataset
    ∧ (∀ key, key ∉ rel_keys → result !! key = dataset !! key)
    ∧ ∀ (j : nat) key,
        rel_keys !! j = Some key → key ∉ drop (S j) rel_keys →
        ∃ data, result !! key = Some data ∧ length data = length rows
          ∧ ((i + j < 2)%nat → data = replicate (length rows) (of_Z 0))
          ∧ ((2 ≤ i + j)%nat →
             ∀ (r : nat) row, rows !! r = Some row →
                              data !! r = row !! (i + j - 2)%nat).
Proof.
  intros Hwf. revert i dataset.
  induction rel_keys as [| key0 rel_keys IH]; intros i dataset Hfit.
  - exists dataset. split; [done |]. split; [set_solver |]. split; [done |].
    intros j key Hj. done.
  - simpl in Hfit.
    assert (Hdata : ∃ data0,
              (if bool_decide (i < 2)%nat
               then Ok (replicate (length rows) (of_Z 0))
               else column ncols rows (i - 2)) = Ok data0
              ∧ length data0 = length rows
              ∧ ((i < 2)%nat → data0 = replicate (length rows) (of_Z 0))
              ∧ ((2 ≤ i)%nat →
                 ∀ (r : nat) row, rows !! r = Some row →
                                  data0 !! r = row !! (i - 2)%nat)).
    { case_bool_decide as Hi.
      - eexists. split; [done |]. split; [by rewrite length_replicate |].
        split; [done | lia].
      - destruct (column_ok ncols rows (i - 2) Hwf) as (col & Hcol & Hlen & Hat);
          [lia |].
        exists col. split; [done |]. split; [done |]. split; [lia | done]. }
    destruct Hdata as (data0 & Hstep & Hlen0 & Hzero0 & Hcol0).
    destruct (IH (S i) (<[key0 := data0]> dataset)) as (result & Hrun & Hdom & Hout & Hin);
      [lia |].
    exists result. cbn [conversion_loop]. rewrite Hstep. simpl. rewrite Hrun.
    split; [done |]. split; [rewrite Hdom, dom_insert_L; set_solver |]. split.
    + intros key Hkey. rewrite Hout by set_solver.
      apply lookup_insert_ne. set_solver.
    + intros [| j] key Hj Hlater; simpl in *.
      * injection Hj as <-. exists data0. rewrite Hout by done.
        rewrite lookup_insert_eq. rewrite Nat.add_0_r.
        split; [done |]. split; [done |]. split; done.
      * destruct (Hin j key Hj Hlater) as (data & Hres & Hlen & Hzero & Hcol).
        exists data. split; [done |]. split; [done |].
        replace (i + S j)%nat with (S i + j)%nat by lia. split; done.
Qed.

(** The loop, when the specification has more entries than there are
    columns and x and y. *)
Lemma conversion_loop_short (ncols : nat) rows (i : nat) (rel_keys : list string) dataset :
  Forall (λ row, length row = ncols) rows →
  (i ≤ ncols + 2)%nat → (ncols + 2 < i + length rel_keys)%nat →
  conversion_loop ncols rows i rel_keys dataset = Raise IndexError.
Proof.
  intros Hwf. revert i dataset.
  induction rel_keys as [| key0 rel_keys IH]; intros i dataset Hi Hshort.
  - simpl in Hshort. lia.
  - simpl in Hshort. cbn [conversion_loop].
    destruct (decide (i = ncols + 2)%nat) as [-> | Hne].
    + rewrite bool_decide_eq_false_2 by lia. unfold column.
      by rewrite bool_decide_eq_false_2 by lia.
    + case_bool_decide as Hlt; simpl.
      * apply IH; lia.
      * destruct (column_ok ncols rows (i - 2) Hwf) as (col & -> & _); [lia |].
        simpl. apply IH; lia.
Qed.

(** [obs_to_kinematics_conversion] on observations of [ncols] columns.
    When the specification has at most [ncols + 2] entries the result has
    exactly the keys of the specification; the first two keys hold a zero
    for every observation, and the key at position [j >= 2] holds column
    [j - 2] (for a key that is not repeated later, which would overwrite
    it).  When the specification is longer, the call is an [IndexError]. *)
Theorem obs_to_kinematics_conversion_entries env (obs : observations F) :
  Forall (λ row, length row = (atleast_2d obs).1) (atleast_2d obs).2 →
  ((length (observation_spec (obs_helper env)) ≤ (atleast_2d obs).1 + 2)%nat →
   ∃ result, obs_to_kinematics_conversion env obs = Ok result
     ∧ dom result
       = list_to_set ((λ e : spec_entry, e.1.1) <$> observation_spec (obs_helper env))
     ∧ ∀ (j : nat) key,
         ((λ e : spec_entry, e.1.1) <$> observation_spec (obs_helper env)) !! j
         = Some key →
         key ∉ drop (S j)
                 ((λ e : spec_entry, e.1.1) <$> observation_spec (obs_helper env)) →
         ∃ data, result !! key = Some data
           ∧ length data = length (atleast_2d obs).2
           ∧ ((j < 2)%nat →
              data = replicate (length (atleast_2d obs).2) (of_Z 0))
           ∧ ((2 ≤ j)%nat →
              ∀ (r : nat) row, (atleast_2d obs).2 !! r = Some row →
                               data !! r = row !! (j - 2)%nat))
  ∧ (((atleast_2d obs).1 + 2 < length (observation_spec (obs_helper env)))%nat →
     obs_to_kinematics_conversion env obs = Raise IndexError).
Proof.
  intros Hwf. unfold obs_to_kinematics_conversion.
  destruct (atleast_2d obs) as [ncols rows]. simpl in *. split.
  - intros Hfit.
    destruct (conversion_loop_ok ncols rows 0
                ((λ e : spec_entry, e.1.1) <$> observation_spec (obs_helper env))
                ∅ Hwf) as (result & Hrun & Hdom & _ & Hin).
    { rewrite length_fmap. lia. }
    exists result. split; [done |]. split; [rewrite Hdom; set_solver |].
    intros j key Hj Hlater.
    destruct (Hin j key Hj Hlater) as (data & Hres & Hlen & Hzero & Hcol).
    exists data. by repeat split.
  - intros Hshort. apply conversion_loop_short; [done | lia |].
    rewrite length_fmap. lia.
Qed.

(** The kinematics of the agent's observation are the raw sample again,
    with zero for x and y: for a raw sample as long as the specification,
    the key at position [j] holds the single value [raw[j]] for [j >= 2]
    and zero for [j < 2] (for a key that is not repeated later). *)
Theorem obs_to_kinematics_of_created_observation env (raw : list F) (j : nat)
    (key : string) :
  length raw = length (observation_spec (obs_helper env)) →
  ((λ e : spec_entry, e.1.1) <$> observation_spec (obs_helper env)) !! j = Some key →
  key ∉ drop (S j) ((λ e : spec_entry, e.1.1) <$> observation_spec (obs_helper env)) →
  ∃ result,
    obs_to_kinematics_conversion env (Obs1 (_create_observation env raw)) = Ok result
    ∧ result !! key
      = Some [if bool_decide (j < 2)%nat then of_Z 0
              else default (of_Z 0) (raw !! j)].
Proof.
  intros Hraw Hj Hlater. unfold obs_to_kinematics_conversion. simpl.
  assert (Hj' : (j < length raw)%nat).
  { rewrite Hraw. apply lookup_lt_Some in Hj. by rewrite length_fmap in Hj. }
  assert (Hcols : (length raw - 2 ≤ length (_create_observation env raw))%nat).
  { unfold _create_observation. destruct (_use_foot_forces env);
      rewrite ?length_app, length_drop; lia. }
  destruct (conversion_loop_ok (length (_create_observation env raw))
              [_create_observation env raw] 0
              ((λ e : spec_entry, e.1.1) <$> observation_spec (obs_helper env)) ∅)
    as (result & Hrun & _ & _ & Hin).
  { by repeat constructor. }
  { rewrite length_fmap. lia. }
  exists result. split; [done |].
  destruct (Hin j key Hj Hlater) as (data & Hres & Hlen & Hzero & Hcol).
  rewrite Hres. f_equal. simpl in *.
  case_bool_decide as Hlt.
  - by rewrite Hzero.
  - specialize (Hcol ltac:(lia) 0%nat _ eq_refl).
    pose proof (padded_observation_lookup env raw j Hj') as Hpad.
    rewrite bool_decide_eq_false_2 in Hpad by done.
    replace j with (2 + (j - 2))%nat in Hpad at 1 by lia. simpl in Hpad.
    rewrite Hpad in Hcol.
    destruct (lookup_lt_is_Some_2 raw j Hj') as [x Hx]. rewrite Hx in Hcol |- *.
    destruct data as [| y [| y' data]]; simpl in *; try done.
    by injection Hcol as ->.
Qed.

End Kinematics.

(** ** Editing the model *)

Section XmlEditing.
Context {H E : Type} `{!XmlInterface H E}.

(** One loop: it goes through exactly when the names are all found in
    the handle and none is listed twice; the names of the loop are then
    gone; and whatever the outcome, a name outside the loop is found as
    before. *)
Lemma remove_all_spec (namespace : string) (names : list string) (h : H) :
  (snd (remove_all namespace names h) = None
   ↔ NoDup names ∧ ∀ name, name ∈ names → is_Some (find h namespace name))
  ∧ (snd (remove_all namespace names h) = None →
     ∀ name, name ∈ names → find (fst (remove_all namespace names h)) namespace name
                            = None)
  ∧ (∀ namespace' name', (namespace' ≠ namespace ∨ name' ∉ names) →
       find (fst (remove_all namespace names h)) namespace' name'
       = find h namespace' name').
Proof.
  revert h. induction names as [| name names IH]; intros h.
  - simpl. split; [| split]; [| by intros _ name Hin; set_solver | done].
    split; [intros _; split; [constructor | set_solver] | done].
  - cbn [remove_all]. destruct (find h namespace name) as [e |] eqn:Hfind.
    + destruct (IH (remove e h)) as (Hiff & Hgone & Hframe).
      assert (Hother : ∀ n, n ≠ name →
                find (remove e h) namespace n = find h namespace n).
      { intros n Hn. apply (find_remove_other h namespace name e); [done |].
        congruence. }
      split; [| split].
      * rewrite Hiff. split.
        -- intros [Hnodup Hall]. split.
           ++ constructor; [| done]. intros Hin.
              destruct (Hall name Hin) as [e' He'].
              by rewrite (find_remove_same h namespace name e) in He'.
           ++ intros n [-> | Hn]%elem_of_cons; [by rewrite Hfind |].
              rewrite <- Hother; [by apply Hall |].
              intros ->. destruct (Hall name Hn) as [e' He'].
              by rewrite (find_remove_same h namespace name e) in He'.
        -- intros [Hnodup Hall]. apply NoDup_cons in Hnodup as [Hnotin Hnodup].
           split; [done |]. intros n Hn.
           rewrite Hother; [apply Hall; set_solver |]. by intros ->.
      * intros Hok n [-> | Hn]%elem_of_cons; [| by apply Hgone].
        destruct (decide (name ∈ names)) as [Hin | Hnotin]; [by apply Hgone |].
        rewrite Hframe by (by right).
        by apply (find_remove_same h namespace name e).
      * intros namespace' name' Hout. rewrite Hframe by set_solver.
        apply (find_remove_other h namespace name e); [done |].
        destruct Hout as [? | Hnotin]; [congruence |].
        intros [= -> ->]. set_solver.
    + simpl. split; [| split]; [| done | done].
      split; [done |]. intros [_ Hall].
      destruct (Hall name) as [e He]; [set_solver |]. by rewrite Hfind in He.
Qed.

(** [_delete_from_xml_handle] returns the handle exactly when every
    joint, motor and equality constraint it is given is in the model and
    none is given twice; otherwise it stops at the first name that is not
    found (a name given twice is not found the second time), for the call
    of [remove] on [None].  When it returns, none of the given names is
    found any more, and every other element is found as before. *)
Theorem delete_from_xml_handle_effect (xml_handle : H)
    (joints_to_remove motors_to_remove equ_constraints : list string) :
  (snd (_delete_from_xml_handle xml_handle joints_to_remove motors_to_remove
          equ_constraints) = None
   ↔ (NoDup joints_to_remove ∧ NoDup motors_to_remove ∧ NoDup equ_constraints)
     ∧ (∀ j, j ∈ joints_to_remove → is_Some (find xml_handle "joint" j))
     ∧ (∀ m, m ∈ motors_to_remove → is_Some (find xml_handle "actuator" m))
     ∧ (∀ e, e ∈ equ_constraints → is_Some (find xml_handle "equality" e)))
  ∧ (snd (_delete_from_xml_handle xml_handle joints_to_remove motors_to_remove
            equ_constraints) = None →
     (∀ j, j ∈ joints_to_remove →
        find (fst (_delete_from_xml_handle xml_handle joints_to_remove
                     motors_to_remove equ_constraints)) "joint" j = None)
     ∧ (∀ m, m ∈ motors_to_remove →
          find (fst (_delete_from_xml_handle xml_handle joints_to_remove
                       motors_to_remove equ_constraints)) "actuator" m = None)
     ∧ (∀ e, e ∈ equ_constraints →
          find (fst (_delete_from_xml_handle xml_handle joints_to_remove
                       motors_to_remove equ_constraints)) "equality" e = None))
  ∧ (∀ namespace name,
       ¬ (namespace = "joint"%string ∧ name ∈ joints_to_remove) →
       ¬ (namespace = "actuator"%string ∧ name ∈ motors_to_remove) →
       ¬ (namespace = "equality"%string ∧ name ∈ equ_constraints) →
       find (fst (_delete_from_xml_handle xml_handle joints_to_remove
                    motors_to_remove equ_constraints)) namespace name
       = find xml_handle namespace name).
Proof.
  unfold _delete_from_xml_handle.
  destruct (remove_all_spec "joint" joints_to_remove xml_handle)
    as (Hjiff & Hjgone & Hjframe).
  destruct (remove_all "joint" joints_to_remove xml_handle) as [h1 [err |]] eqn:Hj;
    simpl in *.
  { split; [| split]; [| done |].
    - split; [done |]. intros (Hnodup & Hfound & _).
      destruct Hjiff as [_ Hjiff]. by specialize (Hjiff (conj (proj1 Hnodup) Hfound)).
    - intros namespace name Hnj _ _. apply Hjframe.
      destruct (decide (namespace = "joint"%string)); [right | by left].
      intros Hin. by apply Hnj. }
  destruct (remove_all_spec "actuator" motors_to_remove h1)
    as (Hmiff & Hmgone & Hmframe).
  destruct (remove_all "actuator" motors_to_remove h1) as [h2 [err |]] eqn:Hm;
    simpl in *.
  { split; [| split]; [| done |].
    - split; [done |]. intros ((_ & Hnodup & _) & _ & Hfound & _).
      destruct Hmiff as [_ Hmiff]. assert (Some err = None); [| done].
      apply Hmiff. split; [done |]. intros m Hin.
      rewrite Hjframe by (by left). by apply Hfound.
    - intros namespace name Hnj Hnm _. rewrite Hmframe, Hjframe; [done | |].
      + destruct (decide (namespace = "joint"%string)); [right | by left].
        intros Hin. by apply Hnj.
      + destruct (decide (namespace = "actuator"%string)); [right | by left].
        intros Hin. by apply Hnm. }
  destruct (remove_all_spec "equality" equ_constraints h2)
    as (Heiff & Hegone & Heframe).
  split; [| split].
  - rewrite Heiff. split.
    + intros [Hnodup Hfound].
      split; [split; [apply Hjiff | split; [apply Hmiff |]]; done |].
      split; [by apply Hjiff |]. split.
      * intros m Hin. rewrite <- (Hjframe "actuator"%string m) by (by left).
        by apply Hmiff.
      * intros e Hin.
        rewrite <- (Hjframe "equality"%string e) by (by left).
        rewrite <- (Hmframe "equality"%string e) by (by left).
        by apply Hfound.
    + intros ((_ & _ & Hnodup) & _ & _ & Hfound). split; [done |].
      intros e Hin. rewrite Hmframe, Hjframe by (by left). by apply Hfound.
  - intros Hok. split; [| split].
    + intros j Hin. rewrite Heframe, Hmframe by (by left). by apply Hjgone.
    + intros m Hin. rewrite Heframe by (by left). by apply Hmgone.
    + intros e Hin. by apply Hegone.
  - intros namespace name Hnj Hnm Hne.
    rewrite Heframe, Hmframe, Hjframe; [done | | |].
    + destruct (decide (namespace = "joint"%string)); [right | by left].
      intros Hin. by apply Hnj.
    + destruct (decide (namespace = "actuator"%string)); [right | by left].
      intros Hin. by apply Hnm.
    + destruct (decide (namespace = "equality"%string)); [right | by left].
      intros Hin. by apply Hne.
Qed.

End XmlEditing.

(** ** The properties on small environments *)

Lemma get_from_obs_of_created_observation_witness :
  _get_from_obs Demo.exact_walker
    (_create_observation Demo.exact_walker [5; 6; 7; 8]%Q) (KeyList ["q_hip"%string])
  = Ok ((λ i, if bool_decide (i < 2) then of_Z 0
              else default (of_Z 0) ([5; 6; 7; 8]%Q !! Z.to_nat i)) <$> [3]).
Proof.
  apply (get_from_obs_of_created_observation Demo.exact_walker [5; 6; 7; 8]%Q
           "q_hip" [3]).
  - vm_compute. reflexivity.
  - repeat constructor; simpl; lia.
Defined.

Lemma get_from_obs_app_witness :
  _get_from_obs Demo.exact_walker [7; 8]%Q
    (KeyList (["q_hip"%string] ++ ["q_pelvis_tz"%string]))
  = Ok ([8%Q] ++ [7%Q]).
Proof.
  apply (get_from_obs_app Demo.exact_walker [7; 8]%Q ["q_hip"%string]
           ["q_pelvis_tz"%string]); vm_compute; reflexivity.
Defined.

Lemma get_obs_idx_addresses_observation_witness :
  ∃ shifted, get_obs_idx (obs_helper Demo.exact_walker) "q_hip" = Ok shifted
    ∧ length shifted = 1%nat
    ∧ mapM (index (_create_observation Demo.exact_walker [5; 6; 7; 8]%Q)) shifted
      = mapM (index [5; 6; 7; 8]%Q) [3].
Proof.
  apply (get_obs_idx_addresses_observation Demo.exact_walker [5; 6; 7; 8]%Q
           "q_hip" [3]).
  - vm_compute. reflexivity.
  - repeat constructor; simpl; lia.
Defined.

Lemma get_obs_idx_of_xy_counts_from_end_witness :
  get_obs_idx (obs_helper Demo.exact_walker) "q_pelvis_tx" = Ok [0 - 2]
  ∧ index [7; 8]%Q (0 - 2) = Ok 7%Q.
Proof.
  apply (get_obs_idx_of_xy_counts_from_end Demo.exact_walker [7; 8]%Q
           "q_pelvis_tx" 0 7%Q).
  - vm_compute. reflexivity.
  - lia.
  - reflexivity.
  - simpl. lia.
Defined.

Lemma set_sim_state_idempotent_witness :
  set_sim_state (Scalar <$> [1; 2; 3; 4]%Q)
    (fst (set_sim_state (Scalar <$> [1; 2; 3; 4]%Q) Demo.exact_walker))
  = set_sim_state (Scalar <$> [1; 2; 3; 4]%Q) Demo.exact_walker.
Proof.
  apply (set_sim_state_idempotent (Scalar <$> [1; 2; 3; 4]%Q) Demo.exact_walker).
  vm_compute. reflexivity.
Defined.

Lemma set_sim_state_reads_back_witness :
  qpos (_data (fst (set_sim_state (Scalar <$> [1; 2; 3; 4]%Q) Demo.exact_walker)))
    !! "hip"%string
  = Some (Scalar 4%Q).
Proof.
  assert (Hok : snd (set_sim_state (Scalar <$> [1; 2; 3; 4]%Q) Demo.exact_walker)
                = Ok tt) by (vm_compute; reflexivity).
  apply (proj1 (set_sim_state_reads_back (Scalar <$> [1; 2; 3; 4]%Q)
                  Demo.exact_walker Hok)
           3%nat "q_hip"%string "hip"%string JOINT_POS (Scalar 4%Q)).
  - reflexivity.
  - reflexivity.
  - constructor.
  - reflexivity.
Defined.

Lemma init_sim_from_obs_reads_back_witness :
  snd (_init_sim_from_obs (array1 [3; 4]%Q) Demo.exact_walker) = Ok tt
  ∧ ∀ (i : nat) key name ot,
      observation_spec (obs_helper Demo.exact_walker) !! i = Some (key, name, ot) →
      Forall (λ e : spec_entry, ¬ (e.2 = ot ∧ e.1.2 = name))
        (drop (S i) (observation_spec (obs_helper Demo.exact_walker))) →
      (ot = JOINT_POS →
         qpos (_data (fst (_init_sim_from_obs (array1 [3; 4]%Q) Demo.exact_walker)))
           !! name
         = Some (Scalar (if bool_decide (i < 2)%nat then of_Z 0
                         else default (of_Z 0) ([3; 4]%Q !! (i - 2)%nat))))
      ∧ (ot = JOINT_VEL →
         qvel (_data (fst (_init_sim_from_obs (array1 [3; 4]%Q) Demo.exact_walker)))
           !! name
         = Some (Scalar (if bool_decide (i < 2)%nat then of_Z 0
                         else default (of_Z 0) ([3; 4]%Q !! (i - 2)%nat)))).
Proof.
  apply (init_sim_from_obs_reads_back Demo.exact_walker [3; 4]%Q).
  - simpl. lia.
  - repeat constructor; discriminate.
Defined.

Lemma init_sim_from_obs_rejects_rotation_witness :
  snd (_init_sim_from_obs (array1 [1]%Q) Demo.rotating_walker) = Raise AssertionError.
Proof.
  apply (init_sim_from_obs_rejects_rotation Demo.rotating_walker [1]%Q 2
           "r_foot" "foot").
  - simpl. lia.
  - reflexivity.
Defined.

Lemma setup_fixed_step_restores_witness :
  setup None (Demo.with_init_step (Some 7))
  = set_sim_state [array1 [7%Q]]
      (set_trajectories (Some (Demo.mkStore 10 2 (7, 0)))
         (emit (Reset_trajectory (Some (7 `mod` 10)) (Some (7 `div` 10)))
            (reward_reset (Demo.with_init_step (Some 7)))))
  ∧ trajectories (fst (setup None (Demo.with_init_step (Some 7))))
    = Some (Demo.mkStore 10 2 (7, 0))
  ∧ log (fst (setup None (Demo.with_init_step (Some 7))))
    = log (Demo.with_init_step (Some 7))
      ++ [Reset_state; Reset_trajectory (Some (7 `mod` 10)) (Some (7 `div` 10))].
Proof.
  destruct (setup_fixed_step_restores (V:=Z) (Demo.with_init_step (Some 7))
              (Demo.mkStore 10 2 (0, 0)) 7 eq_refl eq_refl eq_refl)
    as (_ & _ & Hrestores).
  - lia.
  - simpl. lia.
  - apply (Hrestores ltac:(simpl; lia) (Demo.mkStore 10 2 (7, 0)) [array1 [7%Q]]).
    reflexivity.
Defined.

Lemma setup_random_start_restores_witness :
  setup None Demo.random_walker
  = set_sim_state [array1 [0%Q]]
      (set_trajectories (Some (Demo.mkStore 10 2 (0, 0)))
         (emit (Reset_trajectory None None) (reward_reset Demo.random_walker)))
  ∧ trajectories (fst (setup None Demo.random_walker))
    = Some (Demo.mkStore 10 2 (0, 0))
  ∧ log (fst (setup None Demo.random_walker))
    = log Demo.random_walker ++ [Reset_state; Reset_trajectory None None].
Proof.
  apply (proj2 (setup_random_start_restores Demo.random_walker
                  (Demo.mkStore 10 2 (0, 0)) eq_refl eq_refl eq_refl)
           (Demo.mkStore 10 2 (0, 0)) [array1 [0%Q]]).
  reflexivity.
Defined.

Lemma setup_with_observation_ignores_reset_mode_witness :
  (snd (setup (Some (array1 [1; 2]%Q)) Demo.exact_walker) = Ok tt
   ∨ snd (setup (Some (array1 [1; 2]%Q)) Demo.exact_walker) = Raise AssertionError)
  ∧ trajectories (fst (setup (Some (array1 [1; 2]%Q)) Demo.exact_walker))
    = trajectories Demo.exact_walker
  ∧ log (fst (setup (Some (array1 [1; 2]%Q)) Demo.exact_walker))
    = log Demo.exact_walker ++ [Reset_state]
  ∧ snd (setup (Some (array1 [1; 2]%Q))
           (Demo.make Demo.walker_spec Demo.walker_idx
              (Some (Demo.mkStore 10 2 (0, 0))) true (Some 3) false [] []))
    = snd (setup (Some (array1 [1; 2]%Q)) Demo.exact_walker)
  ∧ (snd (setup (Some (array1 [1; 2]%Q)) Demo.exact_walker) = Ok tt →
     _data (fst (setup (Some (array1 [1; 2]%Q))
                   (Demo.make Demo.walker_spec Demo.walker_idx
                      (Some (Demo.mkStore 10 2 (0, 0))) true (Some 3) false [] [])))
     = _data (fst (setup (Some (array1 [1; 2]%Q)) Demo.exact_walker))).
Proof.
  apply (setup_with_observation_ignores_reset_mode (array1 [1; 2]%Q)
           Demo.exact_walker
           (Demo.make Demo.walker_spec Demo.walker_idx
              (Some (Demo.mkStore 10 2 (0, 0))) true (Some 3) false [] []));
    reflexivity.
Defined.

Lemma init_trajectories_witness :
  log Demo.loaded_walker = []
  ∧ (trajectories Demo.loaded_walker = None
     ↔ Some ({[ "traj_len"%string := 10; "n_traj"%string := 2 ]} : gmap string Z)
       = None
       ∨ Some ({[ "traj_len"%string := 10; "n_traj"%string := 2 ]} : gmap string Z)
         = Some ∅)
  ∧ (∀ t, trajectories Demo.loaded_walker = Some t →
       ∃ p : gmap string Z,
         Some ({[ "traj_len"%string := 10; "n_traj"%string := 2 ]} : gmap string Z)
         = Some p
         ∧ Trajectory (trajectory_args Demo.loaded_walker p) = Ok t
         ∧ arg_keys (trajectory_args Demo.loaded_walker p)
           = remove_dups ((λ e : spec_entry, e.1.1)
                          <$> observation_spec (super_obs_helper Demo.bounded_super))
         ∧ arg_low (trajectory_args Demo.loaded_walker p)
           = (_get_observation_space (super_info Demo.bounded_super) true).1
         ∧ arg_high (trajectory_args Demo.loaded_walker p)
           = (_get_observation_space (super_info Demo.bounded_super) true).2).
Proof.
  apply (init_trajectories (V:=Z) Demo.bounded_super None None
           (Some {[ "traj_len"%string := 10; "n_traj"%string := 2 ]})
           true None true Demo.loaded_walker).
  vm_compute. reflexivity.
Defined.

Lemma init_failure_witness :
  __init__ (R:=Demo.reward) (T:=Demo.store) (W:=list float) (V:=Z)
    Demo.bounded_super (Some "sparse"%string) None None true None true
  = Raise (NotImplementedError
             "The specified reward has not been implemented: " "sparse").
Proof.
  apply (init_failure (V:=Z) Demo.bounded_super (Some "sparse"%string) None None
           true None true).
  - reflexivity.
  - left. vm_compute. reflexivity.
Defined.

Lemma reachable_kinematic_obs_mask_witness :
  get_kinematic_obs_mask Demo.walker
  = seqZ 0 (Z.of_nat (length (observation_spec (obs_helper Demo.walker))) - 2)
  ∧ length (get_kinematic_obs_mask Demo.walker)
    = (length (observation_spec (obs_helper Demo.walker)) - 2)%nat
  ∧ ∀ i : nat, (i + 2 < length (observation_spec (obs_helper Demo.walker)))%nat →
               get_kinematic_obs_mask Demo.walker !! i = Some (Z.of_nat i).
Proof.
  apply (reachable_kinematic_obs_mask (V:=Z) Demo.walker).
  eapply (reach_init (V:=Z)
            (Demo.super Demo.walker_spec Demo.walker_idx [(-2)%float] [2%float])
            None None None false None true).
  vm_compute. reflexivity.
Defined.

Lemma reachable_action_normalisation_witness :
  Forall (λ x, x = of_Z (-1)) (low (action_space (info Demo.walker)))
  ∧ Forall (λ x, x = of_Z 1) (high (action_space (info Demo.walker)))
  ∧ length (norm_act_mean Demo.walker) = length (norm_act_delta Demo.walker)
  ∧ ∀ action, length action = length (norm_act_mean Demo.walker) →
      ∃ r, _preprocess_action Demo.walker action = Ok r ∧ length r = length action.
Proof.
  apply (reachable_action_normalisation (V:=Z) Demo.walker).
  eapply (reach_init (V:=Z)
            (Demo.super Demo.walker_spec Demo.walker_idx [(-2)%float] [2%float])
            None None None false None true).
  vm_compute. reflexivity.
Defined.

Lemma observation_fits_observation_space_witness :
  length (_create_observation Demo.loaded_walker [0; 0; 0.3; 0.1]%float)
  = length (low (observation_space (info Demo.loaded_walker)))
  ∧ length (_create_observation Demo.loaded_walker [0; 0; 0.3; 0.1]%float)
    = length (high (observation_space (info Demo.loaded_walker)))
  ∧ length (_create_observation Demo.loaded_walker [0; 0; 0.3; 0.1]%float)
    = (length [0; 0; 0.3; 0.1]%float - 2 + 12)%nat.
Proof.
  apply (observation_fits_observation_space (V:=Z) Demo.bounded_super None None
           (Some {[ "traj_len"%string := 10; "n_traj"%string := 2 ]})
           true None true Demo.loaded_walker [0; 0; 0.3; 0.1]%float).
  - vm_compute. reflexivity.
  - reflexivity.
  - reflexivity.
Defined.

Lemma obs_to_kinematics_conversion_entries_witness :
  ∃ result,
    obs_to_kinematics_conversion Demo.exact_walker (Obs2 2 [[1; 2]; [3; 4]]%Q)
    = Ok result
    ∧ dom result
      = list_to_set ((λ e : spec_entry, e.1.1)
                     <$> observation_spec (obs_helper Demo.exact_walker)).
Proof.
  assert (Hwf : Forall (λ row : list Q, length row = 2%nat) [[1; 2]; [3; 4]]%Q)
    by (repeat constructor).
  destruct (proj1 (obs_to_kinematics_conversion_entries Demo.exact_walker
                     (Obs2 2 [[1; 2]; [3; 4]]%Q) Hwf))
    as (result & Hrun & Hdom & _).
  - simpl. lia.
  - exists result. split; assumption.
Defined.

Lemma obs_to_kinematics_of_created_observation_witness :
  ∃ result,
    obs_to_kinematics_conversion Demo.exact_walker
      (Obs1 (_create_observation Demo.exact_walker [5; 6; 7; 8]%Q)) = Ok result
    ∧ result !! "q_hip"%string
      = Some [if bool_decide (3 < 2)%nat then of_Z 0
              else default (of_Z 0) ([5; 6; 7; 8]%Q !! 3%nat)].
Proof.
  apply (obs_to_kinematics_of_created_observation Demo.exact_walker
           [5; 6; 7; 8]%Q 3 "q_hip").
  - reflexivity.
  - reflexivity.
  - simpl. apply not_elem_of_nil.
Defined.

(** Editing a model of two joints and one motor: removing a joint that
    is there succeeds, removing it twice or removing one that is not there
    fails after the first removal. *)
Example delete_from_xml_handle_on_model :
  let model : gset (string * string) :=
    {[ ("joint", "hip"); ("joint", "knee"); ("actuator", "hip_motor") ]}%string in
  _delete_from_xml_handle model ["hip"%string] ["hip_motor"%string] []
  = ({[ ("joint", "knee") ]}%string, None)
  ∧ snd (_delete_from_xml_handle model ["hip"; "hip"]%string [] [])
    = Some NoneType_has_no_attribute_remove
  ∧ _delete_from_xml_handle model ["knee"; "ankle"]%string ["hip_motor"%string] []
    = ({[ ("joint", "hip"); ("actuator", "hip_motor") ]}%string,
       Some NoneType_has_no_attribute_remove).
Proof. repeat split; vm_compute; reflexivity. Qed.
